(** * go-aws-enumerator: the report driver of [main.go]

    A shallow embedding of the program's single source file.  The
    driver talks to three things: the IAM client, standard input and
    standard output.  Every run is recorded as a list of events (text
    written, tokens read, client calls and whether they succeeded), so
    that properties of the report can be stated on the trace of
    [main]. *)

From Stdlib Require Import String Ascii List ZArith NArith Lia Bool.
Import ListNotations.
Open Scope string_scope.

(** ** Characters that cannot be written inside a string literal *)

Definition TAB : string := String (ascii_of_nat 9) "".
Definition LF : string := String (ascii_of_nat 10) "".

(** ** The percent-decoding step *)

Module url.

Definition byte_val (c : ascii) : Z := Z.of_N (N_of_ascii c).
Definition to_byte (z : Z) : ascii := ascii_of_N (Z.to_N (z mod 256)).

Definition between (lo hi c : ascii) : bool :=
  ((byte_val lo <=? byte_val c) && (byte_val c <=? byte_val hi))%Z.

Definition ishex (c : ascii) : bool :=
  between "0" "9" c || between "a" "f" c || between "A" "F" c.

Definition unhex (c : ascii) : Z :=
  if between "0" "9" c then byte_val c - byte_val "0"
  else if between "a" "f" c then byte_val c - byte_val "a" + 10
  else if between "A" "F" c then byte_val c - byte_val "A" + 10
  else 0.

(** The error value: the offending (at most three byte) escape. *)
Definition EscapeError := string.

Definition take3 (s : string) : string := substring 0 3 s.

(** First loop of the decoder: count the escapes, check that each
    is followed by two hexadecimal digits, and remember whether a
    plus sign was seen.  [n] and [hasPlus] are the loop's
    variables. *)
Fixpoint scan (s : string) (n : nat) (hasPlus : bool)
  : EscapeError + (nat * bool) :=
  match s with
  | EmptyString => inr (n, hasPlus)
  | String c rest =>
      if Ascii.eqb c "%" then
        match rest with
        | String a (String b rest') =>
            if ishex a && ishex b then scan rest' (S n) hasPlus
            else inl (take3 s)
        | _ => inl (take3 s)
        end
      else if Ascii.eqb c "+" then scan rest n true
      else scan rest n hasPlus
  end.

(** Second loop: build the decoded text.  It runs only on a text the
    first loop accepted, where every percent sign has its two digits;
    the other case of the inner match is never reached. *)
Fixpoint build (s : string) : string :=
  match s with
  | EmptyString => EmptyString
  | String c rest =>
      if Ascii.eqb c "%" then
        match rest with
        | String a (String b rest') =>
            String (to_byte (Z.lor (Z.shiftl (unhex a) 4 mod 256) (unhex b)))
                   (build rest')
        | _ => EmptyString
        end
      else if Ascii.eqb c "+" then String " " (build rest)
      else String c (build rest)
  end.

(** Modelled from the spec: the percent-decoding of the policy
    document, [url.QueryUnescape] at main.go:151.  The function
    belongs to Go's net/url package and is not part of the
    repository; it is written here after that package's decoder in
    query-component mode: every [%XY] becomes the byte with
    hexadecimal value XY, every plus sign becomes a space, and a
    percent sign that is not followed by two hexadecimal digits is an
    error. *)
Definition QueryUnescape (s : string) : EscapeError + string :=
  match scan s 0 false with
  | inl e => inl e
  | inr (n, hasPlus) =>
      if Nat.eqb n 0 && negb hasPlus then inr s else inr (build s)
  end.

Definition upperhex (z : Z) : ascii :=
  match get (Z.to_nat z) "0123456789ABCDEF" with
  | Some c => c
  | None => "0"%char
  end.

(** The three bytes that stand for an escaped byte. *)
Definition pct (c : ascii) (tail : string) : string :=
  String "%" (String (upperhex (Z.shiftr (byte_val c) 4))
             (String (upperhex (Z.land (byte_val c) 15)) tail)).

(** Unreserved characters of RFC 3986, section 2.3. *)
Definition unreserved (c : ascii) : bool :=
  between "a" "z" c || between "A" "Z" c || between "0" "9" c
  || Ascii.eqb c "-" || Ascii.eqb c "_" || Ascii.eqb c "."
  || Ascii.eqb c "~".

(** Modelled from the spec: the URL-encoding of a policy document.
    Unreserved characters stay, every other byte becomes [%XY];
    with [spaceAsPlus] a space is written as a plus sign instead,
    which is the form encoding net/url pairs with [QueryUnescape]. *)
Fixpoint escape (spaceAsPlus : bool) (s : string) : string :=
  match s with
  | EmptyString => EmptyString
  | String c rest =>
      if spaceAsPlus && Ascii.eqb c " " then
        String "+" (escape spaceAsPlus rest)
      else if unreserved c then String c (escape spaceAsPlus rest)
      else pct c (escape spaceAsPlus rest)
  end.

(** RFC 3986 percent-encoding, as the IAM service applies it. *)
Definition PercentEncode : string -> string := escape false.

(** [url.QueryEscape]. *)
Definition QueryEscape : string -> string := escape true.

(** An escaped byte is made of two hexadecimal digits that decode
    to the byte. *)
Definition pct_ok (c : ascii) : bool :=
  let a := upperhex (Z.shiftr (byte_val c) 4) in
  let b := upperhex (Z.land (byte_val c) 15) in
  ishex a && ishex b
  && Ascii.eqb (to_byte (Z.lor (Z.shiftl (unhex a) 4 mod 256) (unhex b))) c.

End url.

(** ** The IAM client

    The records carry the fields the program reads.  A Go pointer
    field is an [option]: [None] is the nil pointer. *)

Module types.

Module User.
Record t (Time : Type) := mk {
  UserName : option string;
  Arn : option string;
  UserId : option string;
  CreateDate : option Time
}.
Arguments mk {Time}. Arguments UserName {Time}. Arguments Arn {Time}.
Arguments UserId {Time}. Arguments CreateDate {Time}.
End User.

Module Group.
Record t (Time : Type) := mk {
  GroupName : option string;
  Arn : option string;
  GroupId : option string;
  CreateDate : option Time
}.
Arguments mk {Time}. Arguments GroupName {Time}. Arguments Arn {Time}.
Arguments GroupId {Time}. Arguments CreateDate {Time}.
End Group.

Module AttachedPolicy.
Record t := mk {
  PolicyName : option string;
  PolicyArn : option string
}.
End AttachedPolicy.

Module PolicyVersion.
Record t (Time : Type) := mk {
  VersionId : option string;
  CreateDate : option Time;
  Document : option string
}.
Arguments mk {Time}. Arguments VersionId {Time}.
Arguments CreateDate {Time}. Arguments Document {Time}.
End PolicyVersion.

End types.

(** A Go [error], kept as the text its [Error] method returns. *)
Definition error := string.

Module iam.

Record GetUserOutput (Time : Type) :=
  { User : option (types.User.t Time) }.
Record ListGroupsForUserOutput (Time : Type) :=
  { Groups : list (types.Group.t Time) }.
Record ListAttachedUserPoliciesOutput :=
  { AttachedPolicies : list types.AttachedPolicy.t }.
Record ListUserPoliciesOutput :=
  { PolicyNames : list string }.
Record ListPolicyVersionsOutput (Time : Type) :=
  { Versions : list (types.PolicyVersion.t Time) }.
Record GetPolicyVersionOutput (Time : Type) :=
  { PolicyVersion : option (types.PolicyVersion.t Time) }.
Arguments User {Time}. Arguments Groups {Time}.
Arguments Versions {Time}. Arguments PolicyVersion {Time}.
Arguments Build_GetUserOutput {Time}.
Arguments Build_ListGroupsForUserOutput {Time}.
Arguments Build_ListPolicyVersionsOutput {Time}.
Arguments Build_GetPolicyVersionOutput {Time}.

(** The six operations the program uses.  Each answers a request
    with an error or an output; the program sends each kind of
    request at most once in a run. *)
Record Client (Time : Type) := {
  GetUser : error + GetUserOutput Time;
  ListGroupsForUser : string -> error + ListGroupsForUserOutput Time;
  ListAttachedUserPolicies : string -> error + ListAttachedUserPoliciesOutput;
  ListUserPolicies : string -> error + ListUserPoliciesOutput;
  ListPolicyVersions : string -> error + ListPolicyVersionsOutput Time;
  GetPolicyVersion : string -> string -> error + GetPolicyVersionOutput Time
}.
Arguments GetUser {Time}. Arguments ListGroupsForUser {Time}.
Arguments ListAttachedUserPolicies {Time}. Arguments ListUserPolicies {Time}.
Arguments ListPolicyVersions {Time}. Arguments GetPolicyVersion {Time}.

(** A request as it leaves the program. *)
Inductive Request :=
| GetUserInput
| ListGroupsForUserInput (UserName : string)
| ListAttachedUserPoliciesInput (UserName : string)
| ListUserPoliciesInput (UserName : string)
| ListPolicyVersionsInput (PolicyArn : string)
| GetPolicyVersionInput (PolicyArn VersionId : string).

End iam.

(** ** Runs

    What a run does to the outside: a write to standard output (the
    text of one [fmt] call), a [fmt.Scanln] (with the token it stored),
    a call of the client (with the request and whether it
    succeeded). *)

Inductive event :=
| EvPrint (text : string)
| EvScan (token : string)
| EvCall (req : iam.Request) (ok : bool).

(** The result of running a piece of the program from a given rest of
    standard input: the events, the input left, and the value, [None]
    when the run stopped in a nil-pointer panic. *)
Record Res (A : Type) := mkRes {
  events : list event;
  rest : list string;
  value : option A
}.
Arguments mkRes {A}. Arguments events {A}. Arguments rest {A}.
Arguments value {A}.

(** Standard input is the list of tokens that the successive
    [fmt.Scanln] calls store. *)
Definition M (A : Type) : Type := list string -> Res A.

Definition ret {A} (a : A) : M A := fun s => mkRes [] s (Some a).

Definition bind {A B} (m : M A) (k : A -> M B) : M B :=
  fun s =>
    match m s with
    | mkRes t s' None => mkRes t s' None
    | mkRes t s' (Some a) =>
        match k a s' with
        | mkRes t' s'' v => mkRes (t ++ t') s'' v
        end
    end.

Notation "x <- m ;; k" := (bind m (fun x => k))
  (at level 61, m at next level, right associativity).
Notation "m ;; k" := (bind m (fun _ => k))
  (at level 61, right associativity).

Definition emit (e : event) : M unit := fun s => mkRes [e] s (Some tt).

(** Dereferencing a nil pointer panics. *)
Definition panic {A} : M A := fun s => mkRes [] s None.

Definition deref {A} (p : option A) : M A :=
  match p with
  | Some a => ret a
  | None => panic
  end.

(** [for _, x := range l { body }] *)
Fixpoint range {A} (l : list A) (body : A -> M unit) : M unit :=
  match l with
  | [] => ret tt
  | x :: l' => body x ;; range l' body
  end.

(** The text written on a run. *)
Fixpoint printed (t : list event) : list string :=
  match t with
  | [] => []
  | EvPrint s :: t' => s :: printed t'
  | _ :: t' => printed t'
  end.

Module fmt.

(** The formats of the program have one verb, [%v]; the argument is
    given already as text. *)
Fixpoint Sprintf (format : string) (arg : string) : string :=
  match format with
  | EmptyString => EmptyString
  | String c rest =>
      match rest with
      | String d rest' =>
          if Ascii.eqb c "%" && Ascii.eqb d "v" then arg ++ rest'
          else String c (Sprintf rest arg)
      | EmptyString => format
      end
  end.

Definition Print (a : string) : M unit := emit (EvPrint a).

(** [Println] writes its operands separated by spaces and ends the
    line. *)
Definition Println (a : list string) : M unit :=
  emit (EvPrint (String.concat " " a ++ LF)).

Definition Printf (format : string) (arg : string) : M unit :=
  emit (EvPrint (Sprintf format arg)).

(** [Scanln(&v)]: the next token is stored in [v]; when there is
    none the variable keeps its zero value, the empty string.  The
    error [Scanln] returns is ignored by the program. *)
Definition Scanln : M string :=
  fun s =>
    match s with
    | [] => mkRes [EvScan ""] [] (Some "")
    | tok :: s' => mkRes [EvScan tok] s' (Some tok)
    end.

End fmt.

(** ** The program *)

Definition MAJOR_SEPARATOR := "=====================================".
Definition MINOR_SEPARATOR := "-------------------------------------".

Definition succeeded {R} (resp : error + R) : bool :=
  match resp with
  | inl _ => false
  | inr _ => true
  end.

(** A call of the client through the SDK. *)
Definition invoke {R} (req : iam.Request) (resp : error + R) : M (error + R) :=
  emit (EvCall req (succeeded resp)) ;;
  ret resp.

Section Driver.

Variable Time : Type.
(** What [%v] prints for a [time.Time]. *)
Variable TimeString : Time -> string.

Definition ListLatestPolicyVersions (iamClient : iam.Client Time)
    (policyArn : string) : M (error + iam.ListPolicyVersionsOutput Time) :=
  r <- invoke (iam.ListPolicyVersionsInput policyArn)
              (iam.ListPolicyVersions iamClient policyArn) ;;
  match r with
  | inl err =>
      fmt.Printf ("Couldn't get details for the policy version. Here's why: %v" ++ LF) err ;;
      ret (inl err)
  | inr policyVersions => ret (inr policyVersions)
  end.

Definition GetPolicyVersionDetails (iamClient : iam.Client Time)
    (policyArn versionId : string)
  : M (error + iam.GetPolicyVersionOutput Time) :=
  r <- invoke (iam.GetPolicyVersionInput policyArn versionId)
              (iam.GetPolicyVersion iamClient policyArn versionId) ;;
  match r with
  | inl err =>
      fmt.Printf ("Couldn't get details for the policy version. Here's why: %v" ++ LF) err ;;
      ret (inl err)
  | inr policyVersionDetails => ret (inr policyVersionDetails)
  end.

Definition GetUserDetails (iamClient : iam.Client Time)
  : M (error + iam.GetUserOutput Time) :=
  r <- invoke iam.GetUserInput (iam.GetUser iamClient) ;;
  match r with
  | inl err =>
      fmt.Printf ("Couldn't get details for the user. Here's why: %v" ++ LF) err ;;
      ret (inl err)
  | inr userDetails => ret (inr userDetails)
  end.

Definition ListUserGroups (iamClient : iam.Client Time) (username : string)
  : M (error + iam.ListGroupsForUserOutput Time) :=
  r <- invoke (iam.ListGroupsForUserInput username)
              (iam.ListGroupsForUser iamClient username) ;;
  match r with
  | inl err =>
      fmt.Printf ("Couldn't get the groups for the user. Here's why: %v" ++ LF) err ;;
      ret (inl err)
  | inr userGroups => ret (inr userGroups)
  end.

Definition ListAttachedUserPolicies (iamClient : iam.Client Time)
    (username : string) : M (error + iam.ListAttachedUserPoliciesOutput) :=
  r <- invoke (iam.ListAttachedUserPoliciesInput username)
              (iam.ListAttachedUserPolicies iamClient username) ;;
  match r with
  | inl err =>
      fmt.Printf ("Couldn't get the policies attached to the user. Here's why: %v" ++ LF) err ;;
      ret (inl err)
  | inr userPolicies => ret (inr userPolicies)
  end.

Definition ListInlineUserPolicies (iamClient : iam.Client Time)
    (username : string) : M (error + iam.ListUserPoliciesOutput) :=
  r <- invoke (iam.ListUserPoliciesInput username)
              (iam.ListUserPolicies iamClient username) ;;
  match r with
  | inl err =>
      fmt.Printf ("Couldn't get the inline policies attached to the user. Here's why: %v" ++ LF) err ;;
      ret (inl err)
  | inr userPolicies => ret (inr userPolicies)
  end.

(** The bodies of the four [range] loops. *)
Definition printVersion (version : types.PolicyVersion.t Time) : M unit :=
  v <- deref (types.PolicyVersion.VersionId version) ;;
  fmt.Printf (TAB ++ "Version ID: %v" ++ LF) v ;;
  d <- deref (types.PolicyVersion.CreateDate version) ;;
  fmt.Printf (TAB ++ "Created on: %v" ++ LF) (TimeString d) ;;
  fmt.Println [].

Definition printGroup (group : types.Group.t Time) : M unit :=
  x <- deref (types.Group.GroupName group) ;;
  fmt.Printf (TAB ++ "Group name: %v" ++ LF) x ;;
  x <- deref (types.Group.Arn group) ;;
  fmt.Printf (TAB ++ "Group ARN: %v" ++ LF) x ;;
  x <- deref (types.Group.GroupId group) ;;
  fmt.Printf (TAB ++ "Group ID: %v" ++ LF) x ;;
  x <- deref (types.Group.CreateDate group) ;;
  fmt.Printf (TAB ++ "Created on: %v" ++ LF) (TimeString x) ;;
  fmt.Println [MINOR_SEPARATOR].

Definition printAttachedPolicy (policy : types.AttachedPolicy.t) : M unit :=
  x <- deref (types.AttachedPolicy.PolicyName policy) ;;
  fmt.Printf (TAB ++ "Policy name: %v" ++ LF) x ;;
  x <- deref (types.AttachedPolicy.PolicyArn policy) ;;
  fmt.Printf (TAB ++ "Policy ARN: %v" ++ LF) x ;;
  fmt.Println [MINOR_SEPARATOR].

Definition printInlinePolicy (policy : string) : M unit :=
  fmt.Printf (TAB ++ "Policy name: %v" ++ LF) policy ;;
  fmt.Println [MINOR_SEPARATOR].

Definition PromptUserForPolicyVersionDetails (iamClient : iam.Client Time)
  : M unit :=
  fmt.Print "Do you want the details of any policy's version? (y/n): " ;;
  input <- fmt.Scanln ;;
  if String.eqb input "y" then
    fmt.Print "Enter the ARN of the policy: " ;;
    policyArn <- fmt.Scanln ;;
    fmt.Println ["Available versions: "] ;;
    r <- ListLatestPolicyVersions iamClient policyArn ;;
    match r with
    | inl _ => fmt.Println ["Couldn't get details for the policy version"]
    | inr policyVersions =>
        range (iam.Versions policyVersions) printVersion ;;
        fmt.Print "Enter the version ID to retrieve: " ;;
        versionId <- fmt.Scanln ;;
        fmt.Println ["Getting details for version "; versionId] ;;
        r <- GetPolicyVersionDetails iamClient policyArn versionId ;;
        match r with
        | inl _ => fmt.Println ["Couldn't get details for the policy version"]
        | inr policyVersionDetails =>
            fmt.Println [MAJOR_SEPARATOR] ;;
            fmt.Println ["Policy version details:"] ;;
            pv <- deref (iam.PolicyVersion policyVersionDetails) ;;
            v <- deref (types.PolicyVersion.VersionId pv) ;;
            fmt.Printf (TAB ++ "Version ID: %v" ++ LF) v ;;
            pv <- deref (iam.PolicyVersion policyVersionDetails) ;;
            d <- deref (types.PolicyVersion.CreateDate pv) ;;
            fmt.Printf (TAB ++ "Created on: %v" ++ LF) (TimeString d) ;;
            pv <- deref (iam.PolicyVersion policyVersionDetails) ;;
            doc <- deref (types.PolicyVersion.Document pv) ;;
            match url.QueryUnescape doc with
            | inl _ => fmt.Println ["Couldn't encode the document. Exiting..."]
            | inr decodedDocument =>
                fmt.Printf (TAB ++ "Document: " ++ LF ++ "%v" ++ LF) decodedDocument ;;
                fmt.Println [MAJOR_SEPARATOR]
            end
        end
    end
  else ret tt.

(** [sdkConfig] is the result of [config.LoadDefaultConfig]: the
    error, or the client built from the configuration. *)
Definition main (sdkConfig : error + iam.Client Time) : M unit :=
  match sdkConfig with
  | inl err =>
      fmt.Println ["Couldn't load default configuration. Have you set up your AWS account?"] ;;
      fmt.Println [err]
  | inr iamClient =>
      fmt.Println ["Getting details for the current user..."] ;;
      fmt.Println [MAJOR_SEPARATOR] ;;
      r <- GetUserDetails iamClient ;;
      match r with
      | inl _ => fmt.Println ["Couldn't get details for the current user. Exiting..."]
      | inr currentUserDetails =>
          fmt.Println ["User details:"] ;;
          u <- deref (iam.User currentUserDetails) ;;
          x <- deref (types.User.UserName u) ;;
          fmt.Printf (TAB ++ "Username: %v" ++ LF) x ;;
          u <- deref (iam.User currentUserDetails) ;;
          x <- deref (types.User.Arn u) ;;
          fmt.Printf (TAB ++ "User ARN: %v" ++ LF) x ;;
          u <- deref (iam.User currentUserDetails) ;;
          x <- deref (types.User.UserId u) ;;
          fmt.Printf (TAB ++ "User ID: %v" ++ LF) x ;;
          u <- deref (iam.User currentUserDetails) ;;
          x <- deref (types.User.CreateDate u) ;;
          fmt.Printf (TAB ++ "Created on: %v" ++ LF) (TimeString x) ;;
          fmt.Println [MAJOR_SEPARATOR] ;;
          fmt.Println [MAJOR_SEPARATOR] ;;
          fmt.Println ["Getting groups for the current user..."] ;;
          fmt.Println [MAJOR_SEPARATOR] ;;
          u <- deref (iam.User currentUserDetails) ;;
          username <- deref (types.User.UserName u) ;;
          r <- ListUserGroups iamClient username ;;
          match r with
          | inl _ => fmt.Println ["Couldn't get groups for the current user. Exiting..."]
          | inr userGroups =>
              range (iam.Groups userGroups) printGroup ;;
              fmt.Println [MAJOR_SEPARATOR] ;;
              fmt.Println ["Getting attached policies for the current user..."] ;;
              fmt.Println [MAJOR_SEPARATOR] ;;
              u <- deref (iam.User currentUserDetails) ;;
              username <- deref (types.User.UserName u) ;;
              r <- ListAttachedUserPolicies iamClient username ;;
              match r with
              | inl _ => fmt.Println ["Couldn't get attached policies for the current user. Exiting..."]
              | inr userPolicies =>
                  range (iam.AttachedPolicies userPolicies) printAttachedPolicy ;;
                  PromptUserForPolicyVersionDetails iamClient ;;
                  fmt.Println [MAJOR_SEPARATOR] ;;
                  fmt.Println ["Getting inline policies for the current user..."] ;;
                  fmt.Println [MAJOR_SEPARATOR] ;;
                  u <- deref (iam.User currentUserDetails) ;;
                  username <- deref (types.User.UserName u) ;;
                  r <- ListInlineUserPolicies iamClient username ;;
                  match r with
                  | inl _ => fmt.Println ["Couldn't get inline policies for the current user. Exiting..."]
                  | inr userInlinePolicies =>
                      range (iam.PolicyNames userInlinePolicies) printInlinePolicy ;;
                      fmt.Println ["All done!"]
                  end
              end
          end
      end
  end.

End Driver.

Arguments main {Time}.
Arguments PromptUserForPolicyVersionDetails {Time}.
Arguments printVersion {Time}.
Arguments printGroup {Time}.

(** ** Reading a trace *)

(** A failure message is a line that starts with "Couldn't", as every
    message the program prints for a failed step does. *)
Definition isFailureMessage (line : string) : bool :=
  String.prefix "Couldn't" line.

Definition failureMessages (t : list event) : list string :=
  filter isFailureMessage (printed t).

(** The requests of a run, in order. *)
Fixpoint requests (t : list event) : list iam.Request :=
  match t with
  | [] => []
  | EvCall req _ :: t' => req :: requests t'
  | _ :: t' => requests t'
  end.

(** The tokens read on a run, in order. *)
Fixpoint scanned (t : list event) : list string :=
  match t with
  | [] => []
  | EvScan tok :: t' => tok :: scanned t'
  | _ :: t' => scanned t'
  end.

(** The lines that open a part of the report, in the order of the
    source: identity, groups, attached policies, the question of the
    interactive part, the details of a policy version, inline
    policies, and the closing message. *)
Definition headUser := "User details:" ++ LF.
Definition headGroups := "Getting groups for the current user..." ++ LF.
Definition headAttached :=
  "Getting attached policies for the current user..." ++ LF.
Definition headPrompt :=
  "Do you want the details of any policy's version? (y/n): ".
Definition headVersion := "Policy version details:" ++ LF.
Definition headInline := "Getting inline policies for the current user..." ++ LF.
Definition closing := "All done!" ++ LF.

Definition isHead (line : string) : bool :=
  existsb (String.eqb line)
    [headUser; headGroups; headAttached; headPrompt; headVersion;
     headInline; closing].

(** The queries of the interactive part. *)
Definition isVersionRequest (req : iam.Request) : bool :=
  match req with
  | iam.ListPolicyVersionsInput _ | iam.GetPolicyVersionInput _ _ => true
  | _ => false
  end.

(** The user name a per-user list query was sent with. *)
Definition listQueryUser (e : event) : option string :=
  match e with
  | EvCall (iam.ListGroupsForUserInput n) _
  | EvCall (iam.ListAttachedUserPoliciesInput n) _
  | EvCall (iam.ListUserPoliciesInput n) _ => Some n
  | _ => None
  end.

(** An event that belongs to no part's opening: a line that is not a
    head, a read, or a query of the interactive part. *)
Definition quiet (e : event) : bool :=
  match e with
  | EvPrint line => negb (isHead line)
  | EvScan _ => true
  | EvCall req _ => isVersionRequest req
  end.

(** An event of the interactive part: quiet, or one of its two
    heads. *)
Definition interactive (e : event) : bool :=
  quiet e ||
  match e with
  | EvPrint line => String.eqb line headPrompt || String.eqb line headVersion
  | _ => false
  end.

(** The closing message is on the trace. *)
Definition printsClosing (t : list event) : bool :=
  existsb (String.eqb closing) (printed t).

(** A query of the given kind was made and succeeded. *)
Definition okQuery (kind : iam.Request -> bool) (e : event) : bool :=
  match e with
  | EvCall req true => kind req
  | _ => false
  end.

Definition querySucceeded (kind : iam.Request -> bool) (t : list event) : bool :=
  existsb (okQuery kind) t.

Definition isGetUser (req : iam.Request) : bool :=
  match req with iam.GetUserInput => true | _ => false end.
Definition isListGroups (req : iam.Request) : bool :=
  match req with iam.ListGroupsForUserInput _ => true | _ => false end.
Definition isListAttached (req : iam.Request) : bool :=
  match req with iam.ListAttachedUserPoliciesInput _ => true | _ => false end.
Definition isListInline (req : iam.Request) : bool :=
  match req with iam.ListUserPoliciesInput _ => true | _ => false end.

(** ** The report, part by part

    What a run is expected to look like when the fields are present.
    Records whose fields are all present are given by the values of
    the fields. *)

Section Report.

Variable Time : Type.
Variable TimeString : Time -> string.

Definition userOf (f : string * string * string * Time) : types.User.t Time :=
  let '(name, arn, id, created) := f in
  types.User.mk (Some name) (Some arn) (Some id) (Some created).

Definition groupOf (f : string * string * string * Time) : types.Group.t Time :=
  let '(name, arn, id, created) := f in
  types.Group.mk (Some name) (Some arn) (Some id) (Some created).

Definition policyOf (f : string * string) : types.AttachedPolicy.t :=
  let '(name, arn) := f in types.AttachedPolicy.mk (Some name) (Some arn).

Definition versionOf (f : string * Time * string) : types.PolicyVersion.t Time :=
  let '(id, created, document) := f in
  types.PolicyVersion.mk (Some id) (Some created) (Some document).

Definition userComplete (u : types.User.t Time) : bool :=
  match types.User.UserName u, types.User.Arn u,
        types.User.UserId u, types.User.CreateDate u with
  | Some _, Some _, Some _, Some _ => true
  | _, _, _, _ => false
  end.

Definition groupComplete (g : types.Group.t Time) : bool :=
  match types.Group.GroupName g, types.Group.Arn g,
        types.Group.GroupId g, types.Group.CreateDate g with
  | Some _, Some _, Some _, Some _ => true
  | _, _, _, _ => false
  end.

Definition policyComplete (p : types.AttachedPolicy.t) : bool :=
  match types.AttachedPolicy.PolicyName p, types.AttachedPolicy.PolicyArn p with
  | Some _, Some _ => true
  | _, _ => false
  end.

Definition versionComplete (v : types.PolicyVersion.t Time) : bool :=
  match types.PolicyVersion.VersionId v, types.PolicyVersion.CreateDate v,
        types.PolicyVersion.Document v with
  | Some _, Some _, Some _ => true
  | _, _, _ => false
  end.

(** A version as the list of versions needs it: the identifier and
    the date are printed, the document is not looked at. *)
Definition versionListed (v : types.PolicyVersion.t Time) : bool :=
  match types.PolicyVersion.VersionId v, types.PolicyVersion.CreateDate v with
  | Some _, Some _ => true
  | _, _ => false
  end.

Definition listedOf (f : string * Time * option string)
  : types.PolicyVersion.t Time :=
  let '(id, created, document) := f in
  types.PolicyVersion.mk (Some id) (Some created) document.

(** Every field the program reads is present in every response the
    client can give. *)
Definition allFieldsPresent (c : iam.Client Time) : Prop :=
  (forall out, iam.GetUser c = inr out ->
     exists u, iam.User out = Some u /\ userComplete u = true) /\
  (forall n out, iam.ListGroupsForUser c n = inr out ->
     forallb groupComplete (iam.Groups out) = true) /\
  (forall n out, iam.ListAttachedUserPolicies c n = inr out ->
     forallb policyComplete (iam.AttachedPolicies out) = true) /\
  (forall arn out, iam.ListPolicyVersions c arn = inr out ->
     forallb versionListed (iam.Versions out) = true) /\
  (forall arn id out, iam.GetPolicyVersion c arn id = inr out ->
     exists v, iam.PolicyVersion out = Some v /\ versionComplete v = true).

(** A client whose current-user answer carries no user record. *)
Definition noUser : iam.Client Time := {|
  iam.GetUser := inr (iam.Build_GetUserOutput None);
  iam.ListGroupsForUser := fun _ => inl "unused";
  iam.ListAttachedUserPolicies := fun _ => inl "unused";
  iam.ListUserPolicies := fun _ => inl "unused";
  iam.ListPolicyVersions := fun _ => inl "unused";
  iam.GetPolicyVersion := fun _ _ => inl "unused"
|}.

Definition opening (ok : bool) : list event :=
  [ EvPrint ("Getting details for the current user..." ++ LF);
    EvPrint (MAJOR_SEPARATOR ++ LF);
    EvCall iam.GetUserInput ok ].

Definition identityLines (f : string * string * string * Time) : list string :=
  let '(name, arn, id, created) := f in
  [ headUser;
    TAB ++ "Username: " ++ name ++ LF;
    TAB ++ "User ARN: " ++ arn ++ LF;
    TAB ++ "User ID: " ++ id ++ LF;
    TAB ++ "Created on: " ++ TimeString created ++ LF;
    MAJOR_SEPARATOR ++ LF ].

Definition groupsHeader (username : string) (ok : bool) : list event :=
  [ EvPrint (MAJOR_SEPARATOR ++ LF);
    EvPrint headGroups;
    EvPrint (MAJOR_SEPARATOR ++ LF);
    EvCall (iam.ListGroupsForUserInput username) ok ].

Definition groupLines (f : string * string * string * Time) : list string :=
  let '(name, arn, id, created) := f in
  [ TAB ++ "Group name: " ++ name ++ LF;
    TAB ++ "Group ARN: " ++ arn ++ LF;
    TAB ++ "Group ID: " ++ id ++ LF;
    TAB ++ "Created on: " ++ TimeString created ++ LF;
    MINOR_SEPARATOR ++ LF ].

Definition attachedHeader (username : string) (ok : bool) : list event :=
  [ EvPrint (MAJOR_SEPARATOR ++ LF);
    EvPrint headAttached;
    EvPrint (MAJOR_SEPARATOR ++ LF);
    EvCall (iam.ListAttachedUserPoliciesInput username) ok ].

Definition attachedLines (f : string * string) : list string :=
  let '(name, arn) := f in
  [ TAB ++ "Policy name: " ++ name ++ LF;
    TAB ++ "Policy ARN: " ++ arn ++ LF;
    MINOR_SEPARATOR ++ LF ].

Definition inlineHeader (username : string) (ok : bool) : list event :=
  [ EvPrint (MAJOR_SEPARATOR ++ LF);
    EvPrint headInline;
    EvPrint (MAJOR_SEPARATOR ++ LF);
    EvCall (iam.ListUserPoliciesInput username) ok ].

Definition inlineLines (name : string) : list string :=
  [ TAB ++ "Policy name: " ++ name ++ LF; MINOR_SEPARATOR ++ LF ].

Definition versionLines (f : string * Time * option string) : list string :=
  let '(id, created, _) := f in
  [ TAB ++ "Version ID: " ++ id ++ LF;
    TAB ++ "Created on: " ++ TimeString created ++ LF;
    LF ].

(** The end of a run that reached the inline-policy query, by the
    answer to that query. *)
Definition inlinePart (username : string)
    (r : error + iam.ListUserPoliciesOutput) : list event :=
  match r with
  | inl err =>
      inlineHeader username false ++
      [ EvPrint ("Couldn't get the inline policies attached to the user. Here's why: "
                 ++ err ++ LF);
        EvPrint ("Couldn't get inline policies for the current user. Exiting..."
                 ++ LF) ]
  | inr out =>
      inlineHeader username true ++
      map EvPrint (flat_map inlineLines (iam.PolicyNames out)) ++
      [ EvPrint closing ]
  end.

(** The three ways the interactive part can fail, read off the
    tokens [stdin] holds (answer, policy ARN, version id) and the
    client's answers. *)
Inductive BranchFailure (c : iam.Client Time) (stdin : list string) : Prop :=
| ListVersionsFails (err : error) :
    nth 0 stdin "" = "y" ->
    iam.ListPolicyVersions c (nth 1 stdin "") = inl err ->
    BranchFailure c stdin
| GetVersionFails (vl : list (string * Time * option string)) (err : error) :
    nth 0 stdin "" = "y" ->
    iam.ListPolicyVersions c (nth 1 stdin "") =
      inr (iam.Build_ListPolicyVersionsOutput (map listedOf vl)) ->
    iam.GetPolicyVersion c (nth 1 stdin "") (nth 2 stdin "") = inl err ->
    BranchFailure c stdin
| DecodeFails (vl : list (string * Time * option string))
              (v : string * Time * string) (esc : url.EscapeError) :
    nth 0 stdin "" = "y" ->
    iam.ListPolicyVersions c (nth 1 stdin "") =
      inr (iam.Build_ListPolicyVersionsOutput (map listedOf vl)) ->
    iam.GetPolicyVersion c (nth 1 stdin "") (nth 2 stdin "") =
      inr (iam.Build_GetPolicyVersionOutput (Some (versionOf v))) ->
    url.QueryUnescape (snd v) = inl esc ->
    BranchFailure c stdin.

End Report.

Arguments userOf {Time}. Arguments groupOf {Time}. Arguments versionOf {Time}.
Arguments userComplete {Time}. Arguments groupComplete {Time}.
Arguments versionComplete {Time}. Arguments allFieldsPresent {Time}.
Arguments versionListed {Time}. Arguments listedOf {Time}.
Arguments identityLines {Time}. Arguments groupLines {Time}.
Arguments versionLines {Time}. Arguments BranchFailure {Time}.
Arguments noUser {Time}.

(** ** Sample data *)

Module sample.

(** Times as seconds since the epoch, printed in decimal. *)
Definition Time := Z.
Definition TimeString (t : Time) : string :=
  String.concat ""
    (map (fun d => String (ascii_of_N (Z.to_N (48 + d))) "")
       (rev ((fix digits (fuel : nat) (n : Z) : list Z :=
                match fuel with
                | O => []
                | S fuel' =>
                    if (n <? 10)%Z then [n]
                    else (n mod 10)%Z :: digits fuel' (n / 10)%Z
                end) 20%nat t))).

Definition alice : types.User.t Time :=
  types.User.mk (Some "alice") (Some "arn:aws:iam::123456789012:user/alice")
                (Some "AIDAEXAMPLE") (Some 1700000000%Z).

Definition devs : types.Group.t Time :=
  types.Group.mk (Some "devs") (Some "arn:aws:iam::123456789012:group/devs")
                 (Some "AGPAEXAMPLE") (Some 1600000000%Z).

Definition readOnly : types.AttachedPolicy.t :=
  types.AttachedPolicy.mk (Some "ReadOnlyAccess")
                          (Some "arn:aws:iam::aws:policy/ReadOnlyAccess").

Definition v1 : types.PolicyVersion.t Time :=
  types.PolicyVersion.mk (Some "v1") (Some 1500000000%Z)
                         (Some "%7B%22Version%22%3A%222012-10-17%22%7D").

(** Every query succeeds and every field is present. *)
Definition client : iam.Client Time := {|
  iam.GetUser := inr (iam.Build_GetUserOutput (Some alice));
  iam.ListGroupsForUser := fun _ => inr (iam.Build_ListGroupsForUserOutput [devs]);
  iam.ListAttachedUserPolicies := fun _ =>
    inr (iam.Build_ListAttachedUserPoliciesOutput [readOnly]);
  iam.ListUserPolicies := fun _ => inr (iam.Build_ListUserPoliciesOutput ["inline-1"]);
  iam.ListPolicyVersions := fun _ => inr (iam.Build_ListPolicyVersionsOutput [v1]);
  iam.GetPolicyVersion := fun _ _ => inr (iam.Build_GetPolicyVersionOutput (Some v1))
|}.

(** The current-user query is refused. *)
Definition denied : iam.Client Time := {|
  iam.GetUser := inl "AccessDenied";
  iam.ListGroupsForUser := iam.ListGroupsForUser client;
  iam.ListAttachedUserPolicies := iam.ListAttachedUserPolicies client;
  iam.ListUserPolicies := iam.ListUserPolicies client;
  iam.ListPolicyVersions := iam.ListPolicyVersions client;
  iam.GetPolicyVersion := iam.GetPolicyVersion client
|}.

(** A user with no group and no policy. *)
Definition bare : iam.Client Time := {|
  iam.GetUser := iam.GetUser client;
  iam.ListGroupsForUser := fun _ => inr (iam.Build_ListGroupsForUserOutput []);
  iam.ListAttachedUserPolicies := fun _ =>
    inr (iam.Build_ListAttachedUserPoliciesOutput []);
  iam.ListUserPolicies := fun _ => inr (iam.Build_ListUserPoliciesOutput []);
  iam.ListPolicyVersions := iam.ListPolicyVersions client;
  iam.GetPolicyVersion := iam.GetPolicyVersion client
|}.

(** The list of versions of a policy is refused. *)
Definition throttled : iam.Client Time := {|
  iam.GetUser := iam.GetUser client;
  iam.ListGroupsForUser := iam.ListGroupsForUser client;
  iam.ListAttachedUserPolicies := iam.ListAttachedUserPolicies client;
  iam.ListUserPolicies := iam.ListUserPolicies client;
  iam.ListPolicyVersions := fun _ => inl "Throttling";
  iam.GetPolicyVersion := iam.GetPolicyVersion client
|}.

(** The list of versions and the list of inline policies are both
    refused. *)
Definition flaky : iam.Client Time := {|
  iam.GetUser := iam.GetUser client;
  iam.ListGroupsForUser := iam.ListGroupsForUser client;
  iam.ListAttachedUserPolicies := iam.ListAttachedUserPolicies client;
  iam.ListUserPolicies := fun _ => inl "Throttling";
  iam.ListPolicyVersions := fun _ => inl "Throttling";
  iam.GetPolicyVersion := iam.GetPolicyVersion client
|}.

End sample.

(** ** Further readings of a trace *)

Definition isPrint (e : event) : bool :=
  match e with
  | EvPrint _ => true
  | _ => false
  end.

(** The line that closes the block of one item. *)
Definition minorLine : string := MINOR_SEPARATOR ++ LF.

Definition isMinorLine (line : string) : bool := String.eqb minorLine line.

(** The number of item blocks on a trace. *)
Definition countMinor (t : list event) : nat :=
  length (filter isMinorLine (printed t)).

(** An event of a loop over the versions of a policy: a line, and not
    the line that closes an item. *)
Definition plainLine (e : event) : bool :=
  match e with
  | EvPrint line => negb (isHead line) && negb (isMinorLine line)
  | _ => false
  end.

(** An event of a loop over items: a line that is not a head. *)
Definition itemLine (e : event) : bool :=
  match e with
  | EvPrint line => negb (isHead line)
  | _ => false
  end.

(** An event of the interactive part that is not the closing line of
    an item. *)
Definition noMinor (e : event) : bool :=
  match e with
  | EvPrint line => negb (isMinorLine line)
  | _ => true
  end.

(** The last line written, [d] when there is none. *)
Fixpoint lastLineFrom (d : string) (t : list event) : string :=
  match t with
  | [] => d
  | EvPrint line :: t' => lastLineFrom line t'
  | _ :: t' => lastLineFrom d t'
  end.

Definition lastLine (t : list event) : string := lastLineFrom "" t.

(** The requests of a whole run, in the order of the source: the
    current user, the groups and the attached policies of user [n],
    the requests of the interactive part, the inline policies of
    [n]. *)
Definition protocol (n : string) (branch : list iam.Request)
  : list iam.Request :=
  [iam.GetUserInput; iam.ListGroupsForUserInput n;
   iam.ListAttachedUserPoliciesInput n]
  ++ branch ++ [iam.ListUserPoliciesInput n].

(** The requests the interactive part can send when standard input
    holds [stdin]: the policy ARN is the second token, the version id
    the third. *)
Definition branchProtocol (stdin : list string) : list iam.Request :=
  [iam.ListPolicyVersionsInput (nth 1 stdin "");
   iam.GetPolicyVersionInput (nth 1 stdin "") (nth 2 stdin "")].

(** [l] is the beginning of [full]. *)
Definition startOf {A} (l full : list A) : Prop :=
  exists more, (l ++ more)%list = full.

(** What the interactive part does, after the answer "y", up to the
    query for one version: the ARN is read, the versions are listed
    (their lines are those of the listed versions [vl]), the version
    id is read. *)
Definition listing {Time} (TimeString : Time -> string) (stdin : list string)
    (vl : list (string * Time * option string)) : list event :=
  [ EvPrint headPrompt; EvScan "y";
    EvPrint "Enter the ARN of the policy: ";
    EvScan (nth 1 stdin "");
    EvPrint ("Available versions: " ++ LF);
    EvCall (iam.ListPolicyVersionsInput (nth 1 stdin "")) true ]
  ++ map EvPrint (flat_map (versionLines TimeString) vl)
  ++ [ EvPrint "Enter the version ID to retrieve: ";
       EvScan (nth 2 stdin "");
       EvPrint ("Getting details for version " ++ " " ++ nth 2 stdin "" ++ LF) ].

(** The lines a run of [main] can end with when it returns: the
    closing message, or the message of [main] for the query that
    failed. *)
Definition endings : list string :=
  [ closing;
    "Couldn't get details for the current user. Exiting..." ++ LF;
    "Couldn't get groups for the current user. Exiting..." ++ LF;
    "Couldn't get attached policies for the current user. Exiting..." ++ LF;
    "Couldn't get inline policies for the current user. Exiting..." ++ LF ].

(** ** More sample data *)

Module sample2.

(** The groups query is refused. *)
Definition noGroups : iam.Client sample.Time := {|
  iam.GetUser := iam.GetUser sample.client;
  iam.ListGroupsForUser := fun _ => inl "AccessDenied";
  iam.ListAttachedUserPolicies := iam.ListAttachedUserPolicies sample.client;
  iam.ListUserPolicies := iam.ListUserPolicies sample.client;
  iam.ListPolicyVersions := iam.ListPolicyVersions sample.client;
  iam.GetPolicyVersion := iam.GetPolicyVersion sample.client
|}.

(** The attached-policies query is refused. *)
Definition noAttached : iam.Client sample.Time := {|
  iam.GetUser := iam.GetUser sample.client;
  iam.ListGroupsForUser := iam.ListGroupsForUser sample.client;
  iam.ListAttachedUserPolicies := fun _ => inl "AccessDenied";
  iam.ListUserPolicies := iam.ListUserPolicies sample.client;
  iam.ListPolicyVersions := iam.ListPolicyVersions sample.client;
  iam.GetPolicyVersion := iam.GetPolicyVersion sample.client
|}.

(** The version of a policy is refused. *)
Definition noVersion : iam.Client sample.Time := {|
  iam.GetUser := iam.GetUser sample.client;
  iam.ListGroupsForUser := iam.ListGroupsForUser sample.client;
  iam.ListAttachedUserPolicies := iam.ListAttachedUserPolicies sample.client;
  iam.ListUserPolicies := iam.ListUserPolicies sample.client;
  iam.ListPolicyVersions := iam.ListPolicyVersions sample.client;
  iam.GetPolicyVersion := fun _ _ => inl "NoSuchEntity"
|}.

(** A version in the list of versions comes without its identifier. *)
Definition nilVersionId : iam.Client sample.Time := {|
  iam.GetUser := iam.GetUser sample.client;
  iam.ListGroupsForUser := iam.ListGroupsForUser sample.client;
  iam.ListAttachedUserPolicies := iam.ListAttachedUserPolicies sample.client;
  iam.ListUserPolicies := iam.ListUserPolicies sample.client;
  iam.ListPolicyVersions := fun _ =>
    inr (iam.Build_ListPolicyVersionsOutput
           [types.PolicyVersion.mk None (Some 1500000000%Z) None]);
  iam.GetPolicyVersion := iam.GetPolicyVersion sample.client
|}.

(** The document of the version is the encoding of a JSON text. *)
Definition QUOTE : string := String (ascii_of_nat 34) "".

Definition json : string :=
  "{" ++ QUOTE ++ "Effect" ++ QUOTE ++ ": " ++ QUOTE ++ "Allow" ++ QUOTE
  ++ ", " ++ QUOTE ++ "Action" ++ QUOTE ++ ": " ++ QUOTE ++ "s3:*" ++ QUOTE
  ++ "}".

(** The text whose encoding is the document of [sample.v1]. *)
Definition versionJson : string :=
  "{" ++ QUOTE ++ "Version" ++ QUOTE ++ ":" ++ QUOTE ++ "2012-10-17" ++ QUOTE
  ++ "}".

Definition encoded : iam.Client sample.Time := {|
  iam.GetUser := iam.GetUser sample.client;
  iam.ListGroupsForUser := iam.ListGroupsForUser sample.client;
  iam.ListAttachedUserPolicies := iam.ListAttachedUserPolicies sample.client;
  iam.ListUserPolicies := iam.ListUserPolicies sample.client;
  iam.ListPolicyVersions := iam.ListPolicyVersions sample.client;
  iam.GetPolicyVersion := fun _ _ =>
    inr (iam.Build_GetPolicyVersionOutput
           (Some (types.PolicyVersion.mk (Some "v2") (Some 1650000000%Z)
                    (Some (url.PercentEncode json)))))
|}.

End sample2.

(** ** Round trip of the percent-decoding *)

Module url_facts.
Import url.

Lemma all_bytes (P : ascii -> Prop) :
  (forall b0 b1 b2 b3 b4 b5 b6 b7, P (Ascii b0 b1 b2 b3 b4 b5 b6 b7)) ->
  forall c, P c.
Proof. intros H [b0 b1 b2 b3 b4 b5 b6 b7]; apply H. Qed.

Lemma pct_ok_all : forall c, pct_ok c = true.
Proof.
  apply all_bytes.
  intros [] [] [] [] [] [] [] []; vm_compute; reflexivity.
Qed.

Lemma unreserved_plain : forall c,
  unreserved c = true -> Ascii.eqb c "%" = false /\ Ascii.eqb c "+" = false
                         /\ Ascii.eqb c " " = false.
Proof.
  apply (all_bytes (fun c => unreserved c = true -> _)).
  intros [] [] [] [] [] [] [] []; vm_compute; intros H;
    repeat split; try reflexivity; discriminate H.
Qed.

Lemma pct_digits c :
  ishex (upperhex (Z.shiftr (byte_val c) 4)) = true /\
  ishex (upperhex (Z.land (byte_val c) 15)) = true /\
  to_byte (Z.lor (Z.shiftl (unhex (upperhex (Z.shiftr (byte_val c) 4))) 4 mod 256)
                 (unhex (upperhex (Z.land (byte_val c) 15)))) = c.
Proof.
  pose proof (pct_ok_all c) as H. unfold pct_ok in H. cbv zeta in H.
  apply andb_true_iff in H as [H H3]. apply andb_true_iff in H as [H1 H2].
  apply Ascii.eqb_eq in H3. auto.
Qed.

(** One step of each loop on an encoded byte. *)
Lemma scan_pct c t n hp : scan (pct c t) n hp = scan t (S n) hp.
Proof.
  destruct (pct_digits c) as (H1 & H2 & _).
  unfold pct. cbn [scan]. rewrite Ascii.eqb_refl, H1, H2. reflexivity.
Qed.

Lemma build_pct c t : build (pct c t) = String c (build t).
Proof.
  destruct (pct_digits c) as (_ & _ & H3).
  unfold pct. cbn [build]. rewrite Ascii.eqb_refl, H3. reflexivity.
Qed.

Lemma scan_plain c t n hp :
  Ascii.eqb c "%" = false -> Ascii.eqb c "+" = false ->
  scan (String c t) n hp = scan t n hp.
Proof. intros H1 H2. cbn [scan]. rewrite H1, H2. reflexivity. Qed.

Lemma build_plain c t :
  Ascii.eqb c "%" = false -> Ascii.eqb c "+" = false ->
  build (String c t) = String c (build t).
Proof. intros H1 H2. cbn [build]. rewrite H1, H2. reflexivity. Qed.

Section Encoded.
Variable plus : bool.

(** The first loop accepts every encoded text, and its counters
    only grow. *)
Lemma scan_escape s : forall n hp,
  exists n' hp', scan (escape plus s) n hp = inr (n', hp')
                 /\ n <= n' /\ (hp = true -> hp' = true).
Proof.
  induction s as [|c s IH]; intros n hp; cbn [escape].
  - exists n, hp. cbn. auto.
  - destruct (plus && Ascii.eqb c " ").
    + cbn [scan]. change (Ascii.eqb "+" "%") with false.
      change (Ascii.eqb "+" "+") with true. cbv iota.
      destruct (IH n true) as (n' & hp' & E & Hn & Hp).
      exists n', hp'. rewrite E. rewrite (Hp eq_refl). auto.
    + destruct (unreserved c) eqn:U.
      * destruct (unreserved_plain c U) as (P1 & P2 & _).
        rewrite (scan_plain _ _ _ _ P1 P2). apply IH.
      * rewrite scan_pct.
        destruct (IH (S n) hp) as (n' & hp' & E & Hn & Hp).
        exists n', hp'. rewrite E. repeat split; auto. lia.
Qed.

(** The second loop inverts the encoder. *)
Lemma build_escape s : build (escape plus s) = s.
Proof.
  induction s as [|c s IH]; cbn [escape]; [reflexivity|].
  destruct (plus && Ascii.eqb c " ") eqn:Sp.
  - apply andb_true_iff in Sp as [_ Sp]. apply Ascii.eqb_eq in Sp.
    subst c. cbn [build]. change (Ascii.eqb "+" "%") with false.
    change (Ascii.eqb "+" "+") with true. cbv iota. now rewrite IH.
  - destruct (unreserved c) eqn:U.
    + destruct (unreserved_plain c U) as (P1 & P2 & _).
      rewrite (build_plain _ _ P1 P2). now rewrite IH.
    + rewrite build_pct. now rewrite IH.
Qed.

(** When the first loop saw neither an escape nor a plus sign the
    encoder changed nothing, so the decoder's shortcut (returning
    its argument) is right. *)
Lemma escape_untouched s : forall n hp,
  scan (escape plus s) n hp = inr (n, false) -> escape plus s = s.
Proof.
  induction s as [|c s IH]; intros n hp; cbn [escape]; [reflexivity|].
  destruct (plus && Ascii.eqb c " ").
  - cbn [scan]. change (Ascii.eqb "+" "%") with false.
    change (Ascii.eqb "+" "+") with true. cbv iota. intros E.
    destruct (scan_escape s n true) as (n' & hp' & E' & _ & Hp).
    rewrite E' in E. injection E as _ E. rewrite (Hp eq_refl) in E.
    discriminate E.
  - destruct (unreserved c) eqn:U.
    + destruct (unreserved_plain c U) as (P1 & P2 & _).
      rewrite (scan_plain _ _ _ _ P1 P2). intros E.
      now rewrite (IH _ _ E).
    + rewrite scan_pct. intros E.
      destruct (scan_escape s (S n) hp) as (n' & hp' & E' & Hn & _).
      rewrite E' in E. injection E as E _. lia.
Qed.

Lemma unescape_escape s : QueryUnescape (escape plus s) = inr s.
Proof.
  unfold QueryUnescape.
  destruct (scan_escape s 0 false) as (n & hp & E & _ & _).
  rewrite E.
  destruct (Nat.eqb n 0 && negb hp) eqn:Short.
  - apply andb_true_iff in Short as [Hn Hp].
    apply Nat.eqb_eq in Hn. apply negb_true_iff in Hp. subst n hp.
    now rewrite (escape_untouched s 0 false E).
  - now rewrite build_escape.
Qed.
End Encoded.

(** C4.  Encoding a JSON text for a URL and then applying the
    program's decoding step gives the text back: for every text [s],
    [QueryUnescape] succeeds on the encoding of [s] and returns [s].
    This holds for the percent-encoding of RFC 3986 and for the form
    encoding (space as plus sign). *)
Theorem C4_encode_then_decode (s : string) :
  QueryUnescape (PercentEncode s) = inr s /\
  QueryUnescape (QueryEscape s) = inr s.
Proof. split; apply unescape_escape. Qed.

End url_facts.

(** ** The driver *)

Section DriverFacts.

Variable Time : Type.
Variable TimeString : Time -> string.

Local Open Scope list_scope.

(** *** Traces *)

Lemma printed_app t t' :
  printed (t ++ t') = (printed t ++ printed t')%list.
Proof.
  induction t as [|[line|tok|req ok] t IH]; cbn; rewrite ?IH; reflexivity.
Qed.

Lemma printed_map l : printed (map EvPrint l) = l.
Proof. induction l as [|x l IH]; cbn; rewrite ?IH; reflexivity. Qed.

Lemma quiet_interactive e : quiet e = true -> interactive e = true.
Proof. unfold interactive. now intros ->. Qed.

Lemma forallb_quiet_interactive t :
  forallb quiet t = true -> forallb interactive t = true.
Proof.
  rewrite !forallb_forall. intros H e He. apply quiet_interactive; auto.
Qed.

Lemma quiet_no_head t :
  forallb quiet t = true -> filter isHead (printed t) = [].
Proof.
  induction t as [|[line|tok|req ok] t IH]; cbn [forallb printed filter quiet];
    intros H; try reflexivity; apply andb_true_iff in H as [H1 H2]; auto.
  apply negb_true_iff in H1. rewrite H1. auto.
Qed.

(** *** The loops *)

(** A loop whose body only produces quiet events and leaves the
    input alone does the same. *)
Lemma range_quiet {A} (body : A -> M unit) :
  (forall x s, exists t v, body x s = mkRes t s v /\ forallb quiet t = true) ->
  forall l s, exists t v,
    range l body s = mkRes t s v /\ forallb quiet t = true.
Proof.
  intros Hb l s. induction l as [|x l IH]; cbn [range].
  - exists [], (Some tt). split; reflexivity.
  - unfold bind. destruct (Hb x s) as (t1 & v1 & -> & Q1).
    destruct v1 as [[]|].
    + destruct IH as (t2 & v2 & -> & Q2).
      exists (t1 ++ t2), v2. split; [reflexivity|].
      rewrite forallb_app, Q1, Q2. reflexivity.
    + exists t1, None. split; [reflexivity|assumption].
Qed.

Lemma printGroup_quiet g s :
  exists t v, printGroup TimeString g s = mkRes t s v /\ forallb quiet t = true.
Proof.
  destruct g as [[n|] [a|] [i|] [d|]];
    unfold printGroup, bind; cbn; eexists _, _; split; reflexivity.
Qed.

Lemma printAttachedPolicy_quiet p s :
  exists t v, printAttachedPolicy p s = mkRes t s v /\ forallb quiet t = true.
Proof.
  destruct p as [[n|] [a|]];
    unfold printAttachedPolicy, bind; cbn; eexists _, _; split; reflexivity.
Qed.

Lemma printVersion_quiet x s :
  exists t v, printVersion TimeString x s = mkRes t s v /\ forallb quiet t = true.
Proof.
  destruct x as [[i|] [d|] doc];
    unfold printVersion, bind; cbn; eexists _, _; split; reflexivity.
Qed.

(** A loop over complete records, whose body writes the lines of
    one record, writes the lines of all of them. *)
Lemma range_lines {A B} (body : A -> M unit) (build : B -> A)
    (lines : B -> list string) :
  (forall f s, body (build f) s = mkRes (map EvPrint (lines f)) s (Some tt)) ->
  forall l s,
    range (map build l) body s =
      mkRes (map EvPrint (flat_map lines l)) s (Some tt).
Proof.
  intros Hb l. induction l as [|f l IH]; intros s; [reflexivity|].
  cbn [map range flat_map]. unfold bind. rewrite Hb, IH.
  now rewrite map_app.
Qed.

Lemma range_groups gl s :
  range (map groupOf gl) (printGroup TimeString) s =
    mkRes (map EvPrint (flat_map (groupLines TimeString) gl)) s (Some tt).
Proof. apply range_lines. now intros [[[n a] i] d]. Qed.

Lemma range_attached pl s :
  range (map policyOf pl) printAttachedPolicy s =
    mkRes (map EvPrint (flat_map attachedLines pl)) s (Some tt).
Proof. apply range_lines. now intros [n a]. Qed.

Lemma range_inline ns s :
  range ns printInlinePolicy s =
    mkRes (map EvPrint (flat_map inlineLines ns)) s (Some tt).
Proof.
  rewrite <- (map_id ns) at 1.
  apply (range_lines printInlinePolicy (fun n => n) inlineLines).
  reflexivity.
Qed.

Lemma range_versions vl s :
  range (map listedOf vl) (printVersion TimeString) s =
    mkRes (map EvPrint (flat_map (versionLines TimeString) vl)) s (Some tt).
Proof. apply range_lines. now intros [[i d] doc]. Qed.

Lemma inlineLines_quiet ns :
  forallb quiet (map EvPrint (flat_map inlineLines ns)) = true.
Proof. induction ns as [|n ns IH]; [reflexivity|]. cbn. exact IH. Qed.

(** Records with every field present are built from the values. *)
Lemma complete_groups (gs : list (types.Group.t Time)) :
  forallb groupComplete gs = true -> exists gl, gs = map groupOf gl.
Proof.
  induction gs as [|[[n|] [a|] [i|] [d|]] gs IH]; cbn; try discriminate.
  - exists []. reflexivity.
  - intros H. destruct (IH H) as (gl & ->).
    exists ((n, a, i, d) :: gl). reflexivity.
Qed.

Lemma complete_policies ps :
  forallb policyComplete ps = true -> exists pl, ps = map policyOf pl.
Proof.
  induction ps as [|[[n|] [a|]] ps IH]; cbn; try discriminate.
  - exists []. reflexivity.
  - intros H. destruct (IH H) as (pl & ->).
    exists ((n, a) :: pl). reflexivity.
Qed.

Lemma listed_versions (vs : list (types.PolicyVersion.t Time)) :
  forallb versionListed vs = true -> exists vl, vs = map listedOf vl.
Proof.
  induction vs as [|[[i|] [d|] doc] vs IH]; cbn; try discriminate.
  - exists []. reflexivity.
  - intros H. destruct (IH H) as (vl & ->).
    exists ((i, d, doc) :: vl). reflexivity.
Qed.

(** *** The interactive part *)

#[local] Arguments url.QueryUnescape : simpl never.

Ltac unfold_driver :=
  unfold main, PromptUserForPolicyVersionDetails, GetUserDetails,
    ListUserGroups, ListAttachedUserPolicies, ListInlineUserPolicies,
    ListLatestPolicyVersions, GetPolicyVersionDetails, invoke, bind.

Ltac loop_step :=
  match goal with
  | |- context [range ?l (printVersion ?ts) ?s] =>
      let Q := fresh "Q" in
      destruct (range_quiet _ (printVersion_quiet) l s) as (? & [[]|] & -> & Q)
  | |- context [range ?l (printGroup ?ts) ?s] =>
      let Q := fresh "Q" in
      destruct (range_quiet _ (printGroup_quiet) l s) as (? & [[]|] & -> & Q)
  | |- context [range ?l printAttachedPolicy ?s] =>
      let Q := fresh "Q" in
      destruct (range_quiet _ (printAttachedPolicy_quiet) l s) as (? & [[]|] & -> & Q)
  | |- context [range ?l printInlinePolicy ?s] =>
      rewrite (range_inline l s)
  end; cbn.

Ltac call_step :=
  match goal with
  | |- context [iam.ListPolicyVersions ?c ?a] =>
      destruct (iam.ListPolicyVersions c a) as [? | [?]] eqn:?
  | |- context [iam.GetPolicyVersion ?c ?a ?v] =>
      destruct (iam.GetPolicyVersion c a v)
        as [? | [[[[?|] [?|] [?|]]|]]] eqn:?
  | |- context [url.QueryUnescape ?d] =>
      destruct (url.QueryUnescape d) eqn:?
  end; cbn.

Ltac quiet_goal :=
  cbn; rewrite ?forallb_app; cbn;
  repeat match goal with
  | Q : forallb quiet ?t = true |- context [forallb interactive ?t] =>
      rewrite (forallb_quiet_interactive t Q); cbn
  | Q : forallb quiet ?t = true |- context [forallb quiet ?t] =>
      rewrite Q; cbn
  end; try reflexivity.

Lemma prompt_interactive c s :
  exists t s' v,
    PromptUserForPolicyVersionDetails TimeString c s = mkRes t s' v
    /\ forallb interactive t = true.
Proof.
  unfold_driver.
  destruct s as [|input [|arn [|vid s]]]; cbn.
  all: try (destruct (String.eqb input "y"); cbn).
  all: repeat first [call_step | loop_step].
  all: eexists _, _, _; (split; [reflexivity|quiet_goal]).
Qed.

Ltac heads_goal :=
  cbn; rewrite ?printed_app, ?filter_app; cbn;
  repeat match goal with
  | Q : forallb quiet ?t = true |- context [filter isHead (printed ?t)] =>
      rewrite (quiet_no_head t Q); cbn
  end; auto.

(** The heads the interactive part writes: its question, and the
    head of the version details when it gets that far. *)
Lemma prompt_heads c s :
  let t := events (PromptUserForPolicyVersionDetails TimeString c s) in
  filter isHead (printed t) = [headPrompt] \/
  filter isHead (printed t) = [headPrompt; headVersion].
Proof.
  unfold_driver.
  destruct s as [|input [|arn [|vid s]]]; cbn.
  all: try (destruct (String.eqb input "y"); cbn).
  all: repeat first [call_step | loop_step].
  all: heads_goal.
Qed.

Lemma prompt_starts c s :
  exists t s' v,
    PromptUserForPolicyVersionDetails TimeString c s =
      mkRes (EvPrint headPrompt :: EvScan (hd "" s) :: t) s' v.
Proof.
  unfold_driver.
  destruct s as [|input [|arn [|vid s]]]; cbn.
  all: try (destruct (String.eqb input "y"); cbn).
  all: repeat first [call_step | loop_step].
  all: eexists _, _, _; reflexivity.
Qed.

(** *** The main routine *)

#[local] Arguments PromptUserForPolicyVersionDetails : simpl never.

Ltac unfold_main :=
  unfold main, GetUserDetails, ListUserGroups, ListAttachedUserPolicies,
    ListInlineUserPolicies, invoke, bind.

Ltac main_step :=
  match goal with
  | |- context [iam.GetUser ?c] =>
      destruct (iam.GetUser c) as [? | [[[[?|] [?|] [?|] [?|]]|]]] eqn:?
  | |- context [iam.ListGroupsForUser ?c ?n] =>
      destruct (iam.ListGroupsForUser c n) as [? | [?]] eqn:?
  | |- context [iam.ListAttachedUserPolicies ?c ?n] =>
      destruct (iam.ListAttachedUserPolicies c n) as [? | [?]] eqn:?
  | |- context [iam.ListUserPolicies ?c ?n] =>
      destruct (iam.ListUserPolicies c n) as [? | [?]] eqn:?
  | |- context [PromptUserForPolicyVersionDetails ?ts ?c ?s] =>
      let Q := fresh "QB" in
      destruct (prompt_interactive c s) as (? & ? & [[]|] & -> & Q)
  end; cbn.

Ltac run_main := unfold_main; cbn; repeat first [main_step | loop_step].

Section Reached.
Variables (c : iam.Client Time) (stdin : list string).
Variables (name arn id : string) (created : Time).
Hypothesis HU :
  iam.GetUser c =
    inr (iam.Build_GetUserOutput (Some (userOf (name, arn, id, created)))).

Lemma main_user :
  exists tail s' v,
    main TimeString (inr c) stdin =
      mkRes (opening true
             ++ map EvPrint (identityLines TimeString (name, arn, id, created))
             ++ groupsHeader name (succeeded (iam.ListGroupsForUser c name))
             ++ tail) s' v.
Proof.
  unfold_main. rewrite HU. cbn.
  repeat first [main_step | loop_step].
  all: eexists _, _, _; reflexivity.
Qed.

Variable gl : list (string * string * string * Time).
Hypothesis HG :
  iam.ListGroupsForUser c name =
    inr (iam.Build_ListGroupsForUserOutput (map groupOf gl)).

Lemma main_groups :
  exists tail s' v,
    main TimeString (inr c) stdin =
      mkRes (opening true
             ++ map EvPrint (identityLines TimeString (name, arn, id, created))
             ++ groupsHeader name true
             ++ map EvPrint (flat_map (groupLines TimeString) gl)
             ++ attachedHeader name
                  (succeeded (iam.ListAttachedUserPolicies c name))
             ++ tail) s' v.
Proof.
  unfold_main. rewrite HU. cbn. rewrite HG. cbn. rewrite range_groups. cbn.
  repeat first [main_step | loop_step].
  all: eexists _, _, _; reflexivity.
Qed.

Variable pl : list (string * string).
Hypothesis HA :
  iam.ListAttachedUserPolicies c name =
    inr (iam.Build_ListAttachedUserPoliciesOutput (map policyOf pl)).

Lemma main_attached :
  exists tail s' v,
    main TimeString (inr c) stdin =
      mkRes (opening true
             ++ map EvPrint (identityLines TimeString (name, arn, id, created))
             ++ groupsHeader name true
             ++ map EvPrint (flat_map (groupLines TimeString) gl)
             ++ attachedHeader name true
             ++ map EvPrint (flat_map attachedLines pl)
             ++ EvPrint headPrompt :: EvScan (hd "" stdin) :: tail) s' v.
Proof.
  unfold_main. rewrite HU. cbn. rewrite HG. cbn. rewrite range_groups. cbn.
  rewrite HA. cbn. rewrite range_attached. cbn.
  destruct (prompt_starts c stdin) as (t & s' & [[]|] & ->); cbn.
  all: repeat first [main_step | loop_step].
  all: eexists _, _, _; reflexivity.
Qed.

Variables (tb : list event) (stdin' : list string).
Hypothesis HB :
  PromptUserForPolicyVersionDetails TimeString c stdin =
    mkRes tb stdin' (Some tt).

Lemma main_report :
  main TimeString (inr c) stdin =
    mkRes (opening true
           ++ map EvPrint (identityLines TimeString (name, arn, id, created))
           ++ groupsHeader name true
           ++ map EvPrint (flat_map (groupLines TimeString) gl)
           ++ attachedHeader name true
           ++ map EvPrint (flat_map attachedLines pl)
           ++ tb
           ++ inlinePart name (iam.ListUserPolicies c name))
          stdin' (Some tt).
Proof.
  unfold_main. rewrite HU. cbn. rewrite HG. cbn. rewrite range_groups. cbn.
  rewrite HA. cbn. rewrite range_attached. cbn. rewrite HB. cbn.
  destruct (iam.ListUserPolicies c name) as [err | [ns]]; cbn.
  - reflexivity.
  - rewrite range_inline. reflexivity.
Qed.
End Reached.

(** C1 (amended).  When the current-user query fails, the run is:
    the two opening lines, the one call of the client, the message
    of [GetUserDetails] with the error, the message of [main].
    No other query is made, nothing is read from standard input, the
    program returns normally, and the failure messages printed are
    exactly these two. *)
Theorem C1_current_user_failure
    (iamClient : iam.Client Time) (stdin : list string) (err : error) :
  iam.GetUser iamClient = inl err ->
  main TimeString (inr iamClient) stdin =
    mkRes [ EvPrint ("Getting details for the current user..." ++ LF);
            EvPrint (MAJOR_SEPARATOR ++ LF);
            EvCall iam.GetUserInput false;
            EvPrint ("Couldn't get details for the user. Here's why: "
                     ++ err ++ LF);
            EvPrint ("Couldn't get details for the current user. Exiting..."
                     ++ LF) ]
          stdin (Some tt)
  /\ requests (events (main TimeString (inr iamClient) stdin)) = [iam.GetUserInput]
  /\ scanned (events (main TimeString (inr iamClient) stdin)) = []
  /\ failureMessages (events (main TimeString (inr iamClient) stdin)) =
       [ ("Couldn't get details for the user. Here's why: " ++ err ++ LF)%string;
         ("Couldn't get details for the current user. Exiting..." ++ LF)%string ].
Proof.
  intros H.
  assert (E : main TimeString (inr iamClient) stdin =
    mkRes [ EvPrint ("Getting details for the current user..." ++ LF);
            EvPrint (MAJOR_SEPARATOR ++ LF);
            EvCall iam.GetUserInput false;
            EvPrint ("Couldn't get details for the user. Here's why: "
                     ++ err ++ LF);
            EvPrint ("Couldn't get details for the current user. Exiting..."
                     ++ LF) ]
          stdin (Some tt)).
  { unfold main, GetUserDetails, invoke, bind. cbn.
    rewrite H. reflexivity. }
  rewrite E. repeat split.
Qed.

(** C3.  When the token read at the prompt is not "y" (the empty
    token at end of input included), the prompt function writes the
    question, reads that one token and returns: no further token is
    read, no call of the client is made and nothing else is
    written. *)
Theorem C3_answer_not_y
    (iamClient : iam.Client Time) (stdin : list string) :
  hd "" stdin <> "y" ->
  PromptUserForPolicyVersionDetails TimeString iamClient stdin =
    mkRes [ EvPrint "Do you want the details of any policy's version? (y/n): ";
            EvScan (hd "" stdin) ]
          (tl stdin) (Some tt).
Proof.
  intros H. apply String.eqb_neq in H.
  unfold PromptUserForPolicyVersionDetails, bind.
  destruct stdin as [|tok stdin']; cbn in *.
  - reflexivity.
  - rewrite H. reflexivity.
Qed.

Lemma requests_app t t' : requests (t ++ t') = requests t ++ requests t'.
Proof.
  induction t as [|[line|tok|req ok] t IH]; cbn; rewrite ?IH; reflexivity.
Qed.

Lemma requests_map l : requests (map EvPrint l) = [].
Proof. induction l as [|x l IH]; cbn; rewrite ?IH; reflexivity. Qed.

Lemma inlinePart_requests name r :
  In (iam.ListUserPoliciesInput name) (requests (inlinePart name r)).
Proof. destruct r as [err|out]; cbn; auto. Qed.

Lemma printed_last t line d :
  last (printed (t ++ [EvPrint line])) d = line.
Proof. rewrite printed_app. cbn [printed]. apply last_last. Qed.

Lemma inlinePart_closing name out :
  last (printed (inlinePart name (inr out))) ""%string = closing.
Proof. unfold inlinePart. rewrite app_assoc. apply printed_last. Qed.

(** A failure of the interactive part ends that part, not the
    program: the function returns. *)
Lemma branch_failure_returns c s :
  BranchFailure c s ->
  exists tb s',
    PromptUserForPolicyVersionDetails TimeString c s = mkRes tb s' (Some tt).
Proof.
  intros [err Hy Hl | vl err Hy Hl Hg | vl [[i d] doc] esc Hy Hl Hg Hd];
    unfold_driver;
    destruct s as [|input [|arn [|vid s]]]; cbn in Hy, Hl |- *;
    try discriminate Hy; subst input; cbn; rewrite Hl; cbn;
    try (rewrite range_versions; cbn; cbn in Hg; rewrite Hg; cbn);
    try (cbn in Hd; rewrite Hd; cbn).
  all: eexists _, _; reflexivity.
Qed.

(** C2 (amended).  When the interactive part fails in one of its
    three ways (the list of versions is refused, the version is
    refused, the document does not decode) in a run that reached it,
    the prompt function returns normally and [main] goes on: it
    sends the inline-policy query for the same user, and the run
    ends as that query decides; when it succeeds, the last line
    written is the closing message. *)
Theorem C2_branch_failure_is_local
    (c : iam.Client Time) (stdin : list string)
    (name arn id : string) (created : Time)
    (gl : list (string * string * string * Time))
    (pl : list (string * string)) :
  iam.GetUser c =
    inr (iam.Build_GetUserOutput (Some (userOf (name, arn, id, created)))) ->
  iam.ListGroupsForUser c name =
    inr (iam.Build_ListGroupsForUserOutput (map groupOf gl)) ->
  iam.ListAttachedUserPolicies c name =
    inr (iam.Build_ListAttachedUserPoliciesOutput (map policyOf pl)) ->
  BranchFailure c stdin ->
  exists tb stdin',
    PromptUserForPolicyVersionDetails TimeString c stdin =
      mkRes tb stdin' (Some tt)
    /\ main TimeString (inr c) stdin =
         mkRes (opening true
                ++ map EvPrint (identityLines TimeString (name, arn, id, created))
                ++ groupsHeader name true
                ++ map EvPrint (flat_map (groupLines TimeString) gl)
                ++ attachedHeader name true
                ++ map EvPrint (flat_map attachedLines pl)
                ++ tb
                ++ inlinePart name (iam.ListUserPolicies c name))
               stdin' (Some tt)
    /\ In (iam.ListUserPoliciesInput name)
          (requests (events (main TimeString (inr c) stdin)))
    /\ (forall out, iam.ListUserPolicies c name = inr out ->
          last (printed (events (main TimeString (inr c) stdin))) ""%string
            = closing).
Proof.
  intros HU HG HA HF.
  destruct (branch_failure_returns c stdin HF) as (tb & stdin' & HB).
  exists tb, stdin'. split; [exact HB|].
  rewrite (main_report c stdin name arn id created HU gl HG pl HA tb stdin' HB).
  split; [reflexivity|]. cbn [events]. split.
  - rewrite !requests_app, !in_app_iff. do 7 right.
    apply inlinePart_requests.
  - intros out ->. unfold inlinePart. rewrite !app_assoc.
    apply printed_last.
Qed.

(** *** Parts of the report *)

Lemma groupLines_no_head gl :
  filter isHead (flat_map (groupLines TimeString) gl) = [].
Proof. induction gl as [|[[[n a] i] d] gl IH]; [reflexivity|exact IH]. Qed.

Lemma attachedLines_no_head pl :
  filter isHead (flat_map attachedLines pl) = [].
Proof. induction pl as [|[n a] pl IH]; [reflexivity|exact IH]. Qed.

Lemma inlineLines_no_head ns :
  filter isHead (flat_map inlineLines ns) = [].
Proof. induction ns as [|n ns IH]; [reflexivity|exact IH]. Qed.

(** C5.  In a run that reaches the part in question: with an
    empty list of groups, the three opening lines of the groups part
    and its query are followed at once by the opening lines of the
    attached-policies part; with an empty list of attached policies,
    the opening lines of that part and its query are followed at once
    by the question of the interactive part; with an empty list of
    inline policy names, the opening lines of that part and its query
    are followed at once by the closing message, which ends the run.
    No item line and no minor separator is written for the part. *)
Theorem C5_empty_list_prints_header_only
    (c : iam.Client Time) (stdin : list string)
    (name arn id : string) (created : Time) :
  iam.GetUser c =
    inr (iam.Build_GetUserOutput (Some (userOf (name, arn, id, created)))) ->
  (iam.ListGroupsForUser c name = inr (iam.Build_ListGroupsForUserOutput []) ->
   exists tail s' v,
     main TimeString (inr c) stdin =
       mkRes (opening true
              ++ map EvPrint (identityLines TimeString (name, arn, id, created))
              ++ groupsHeader name true
              ++ attachedHeader name
                   (succeeded (iam.ListAttachedUserPolicies c name))
              ++ tail) s' v)
  /\
  (forall gl,
   iam.ListGroupsForUser c name =
     inr (iam.Build_ListGroupsForUserOutput (map groupOf gl)) ->
   iam.ListAttachedUserPolicies c name =
     inr (iam.Build_ListAttachedUserPoliciesOutput []) ->
   exists tail s' v,
     main TimeString (inr c) stdin =
       mkRes (opening true
              ++ map EvPrint (identityLines TimeString (name, arn, id, created))
              ++ groupsHeader name true
              ++ map EvPrint (flat_map (groupLines TimeString) gl)
              ++ attachedHeader name true
              ++ EvPrint headPrompt :: EvScan (hd ""%string stdin) :: tail) s' v)
  /\
  (forall gl pl tb stdin',
   iam.ListGroupsForUser c name =
     inr (iam.Build_ListGroupsForUserOutput (map groupOf gl)) ->
   iam.ListAttachedUserPolicies c name =
     inr (iam.Build_ListAttachedUserPoliciesOutput (map policyOf pl)) ->
   PromptUserForPolicyVersionDetails TimeString c stdin =
     mkRes tb stdin' (Some tt) ->
   iam.ListUserPolicies c name = inr (iam.Build_ListUserPoliciesOutput []) ->
   main TimeString (inr c) stdin =
     mkRes (opening true
            ++ map EvPrint (identityLines TimeString (name, arn, id, created))
            ++ groupsHeader name true
            ++ map EvPrint (flat_map (groupLines TimeString) gl)
            ++ attachedHeader name true
            ++ map EvPrint (flat_map attachedLines pl)
            ++ tb
            ++ inlineHeader name true
            ++ [EvPrint closing]) stdin' (Some tt)).
Proof.
  intros HU. split; [|split].
  - intros HG.
    exact (main_groups c stdin name arn id created HU [] HG).
  - intros gl HG HA.
    exact (main_attached c stdin name arn id created HU gl HG [] HA).
  - intros gl pl tb stdin' HG HA HB HI.
    rewrite (main_report c stdin name arn id created HU gl HG pl HA tb stdin' HB).
    rewrite HI. reflexivity.
Qed.

(** C6.  Every field is written as the response has it.  In a run
    whose current-user query succeeded, the output starts with the
    two opening lines and the identity lines, which hold the user's
    name, ARN, id and creation time as returned; when the groups
    query succeeded too, the lines of the groups follow, one block
    per group with its name, ARN, id and creation time; likewise the
    attached policies with name and ARN; and when the run gets
    through the interactive part and the inline query succeeds, the
    whole output is the concatenation of these parts, the output of
    the interactive part and one block per inline policy name. *)
Theorem C6_fields_printed_verbatim
    (c : iam.Client Time) (stdin : list string)
    (name arn id : string) (created : Time) :
  iam.GetUser c =
    inr (iam.Build_GetUserOutput (Some (userOf (name, arn, id, created)))) ->
  (exists tail,
     printed (events (main TimeString (inr c) stdin)) =
       printed (opening true)
       ++ identityLines TimeString (name, arn, id, created)
       ++ tail)
  /\
  (forall gl,
   iam.ListGroupsForUser c name =
     inr (iam.Build_ListGroupsForUserOutput (map groupOf gl)) ->
   (exists tail,
      printed (events (main TimeString (inr c) stdin)) =
        printed (opening true)
        ++ identityLines TimeString (name, arn, id, created)
        ++ printed (groupsHeader name true)
        ++ flat_map (groupLines TimeString) gl
        ++ tail)
   /\
   (forall pl,
    iam.ListAttachedUserPolicies c name =
      inr (iam.Build_ListAttachedUserPoliciesOutput (map policyOf pl)) ->
    (exists tail,
       printed (events (main TimeString (inr c) stdin)) =
         printed (opening true)
         ++ identityLines TimeString (name, arn, id, created)
         ++ printed (groupsHeader name true)
         ++ flat_map (groupLines TimeString) gl
         ++ printed (attachedHeader name true)
         ++ flat_map attachedLines pl
         ++ tail)
    /\
    (forall tb stdin' ns,
     PromptUserForPolicyVersionDetails TimeString c stdin =
       mkRes tb stdin' (Some tt) ->
     iam.ListUserPolicies c name =
       inr (iam.Build_ListUserPoliciesOutput ns) ->
     printed (events (main TimeString (inr c) stdin)) =
       printed (opening true)
       ++ identityLines TimeString (name, arn, id, created)
       ++ printed (groupsHeader name true)
       ++ flat_map (groupLines TimeString) gl
       ++ printed (attachedHeader name true)
       ++ flat_map attachedLines pl
       ++ printed tb
       ++ printed (inlineHeader name true)
       ++ flat_map inlineLines ns
       ++ [closing]))).
Proof.
  intros HU. split.
  { destruct (main_user c stdin name arn id created HU) as (tail & s' & v & E).
    rewrite E. cbn [events]. rewrite !printed_app, !printed_map.
    eexists. reflexivity. }
  intros gl HG. split.
  { destruct (main_groups c stdin name arn id created HU gl HG)
      as (tail & s' & v & E).
    rewrite E. cbn [events]. rewrite !printed_app, !printed_map.
    eexists. reflexivity. }
  intros pl HA. split.
  { destruct (main_attached c stdin name arn id created HU gl HG pl HA)
      as (tail & s' & v & E).
    rewrite E. cbn [events]. rewrite !printed_app, !printed_map.
    eexists. reflexivity. }
  intros tb stdin' ns HB HI.
  rewrite (main_report c stdin name arn id created HU gl HG pl HA tb stdin' HB).
  rewrite HI. unfold inlinePart. cbn [events iam.PolicyNames].
  rewrite !printed_app, !printed_map. reflexivity.
Qed.

(** C7.  In a run whose four top-level queries succeed and whose
    interactive part returns, the heads of the parts appear once
    each and in the order of the source: identity, groups, attached
    policies, the question of the interactive part, then the head of
    the version details when that part got that far, inline
    policies, and the closing message, which is the last line of the
    output. *)
Theorem C7_parts_in_order
    (c : iam.Client Time) (stdin : list string)
    (name arn id : string) (created : Time)
    (gl : list (string * string * string * Time))
    (pl : list (string * string)) (ns : list string)
    (tb : list event) (stdin' : list string) :
  iam.GetUser c =
    inr (iam.Build_GetUserOutput (Some (userOf (name, arn, id, created)))) ->
  iam.ListGroupsForUser c name =
    inr (iam.Build_ListGroupsForUserOutput (map groupOf gl)) ->
  iam.ListAttachedUserPolicies c name =
    inr (iam.Build_ListAttachedUserPoliciesOutput (map policyOf pl)) ->
  PromptUserForPolicyVersionDetails TimeString c stdin =
    mkRes tb stdin' (Some tt) ->
  iam.ListUserPolicies c name = inr (iam.Build_ListUserPoliciesOutput ns) ->
  exists details,
    filter isHead (printed (events (main TimeString (inr c) stdin))) =
      [headUser; headGroups; headAttached; headPrompt]
      ++ details ++ [headInline; closing]
    /\ (details = [] \/ details = [headVersion])
    /\ last (printed (events (main TimeString (inr c) stdin))) ""%string
       = closing.
Proof.
  intros HU HG HA HB HI.
  rewrite (main_report c stdin name arn id created HU gl HG pl HA tb stdin' HB).
  rewrite HI. unfold inlinePart. cbn [events iam.PolicyNames].
  pose proof (prompt_heads c stdin) as Hb. cbv zeta in Hb.
  rewrite HB in Hb. cbn [events] in Hb.
  exists (tl (filter isHead (printed tb))).
  split; [|split].
  - rewrite !printed_app, !printed_map, !filter_app.
    rewrite groupLines_no_head, attachedLines_no_head, inlineLines_no_head.
    destruct Hb as [-> | ->]; reflexivity.
  - destruct Hb as [-> | ->]; auto.
  - rewrite !app_assoc. apply printed_last.
Qed.

(** *** Nil fields *)

Lemma prompt_total c s :
  allFieldsPresent c ->
  value (PromptUserForPolicyVersionDetails TimeString c s) = Some tt.
Proof.
  intros (_ & _ & _ & HLV & HGV).
  unfold_driver.
  destruct s as [|input [|arn [|vid s]]]; cbn.
  all: try (destruct (String.eqb input "y"); cbn); try reflexivity.
  all: match goal with
       | |- context [iam.ListPolicyVersions ?c ?a] =>
           destruct (iam.ListPolicyVersions c a) as [? | [vs]] eqn:EL
       end; cbn; try reflexivity.
  all: destruct (listed_versions vs (HLV _ _ EL)) as (vl & ->);
       rewrite range_versions; cbn.
  all: match goal with
       | |- context [iam.GetPolicyVersion ?c ?a ?v] =>
           destruct (iam.GetPolicyVersion c a v) as [? | [pv]] eqn:EG
       end; cbn; try reflexivity.
  all: destruct (HGV _ _ _ EG) as ([[i|] [d|] [doc|]] & Hv & Hc);
       try discriminate Hc; cbn in Hv; subst pv; cbn.
  all: destruct (url.QueryUnescape doc); reflexivity.
Qed.

(** C8.  When every field the program reads is present in every
    response of the client, no run stops in a nil-pointer panic:
    [main] returns, whatever standard input holds.  Without that
    condition the program has no defence: there is a client, with
    the user record missing from its answer, on which the run
    panics. *)
Theorem C8_no_nil_dereference :
  (forall (c : iam.Client Time) (stdin : list string),
     allFieldsPresent c ->
     value (main TimeString (inr c) stdin) = Some tt)
  /\
  (exists (c : iam.Client Time) (stdin : list string),
     ~ allFieldsPresent c /\
     value (main TimeString (inr c) stdin) = None).
Proof.
  split.
  - intros c stdin HP.
    pose proof (prompt_total c stdin HP) as HB.
    destruct HP as (HGU & HLG & HLA & _).
    destruct (iam.GetUser c) as [err|[ou]] eqn:EU.
    { unfold_main. rewrite EU. reflexivity. }
    destruct (HGU _ eq_refl) as ([[name|] [arn|] [id|] [created|]] & Hu & Hc);
      try discriminate Hc.
    cbn in Hu. subst ou.
    destruct (iam.ListGroupsForUser c name) as [err|[gs]] eqn:EG.
    { unfold_main. rewrite EU. cbn. rewrite EG. reflexivity. }
    destruct (complete_groups gs (HLG _ _ EG)) as (gl & ->).
    destruct (iam.ListAttachedUserPolicies c name) as [err|[ps]] eqn:EA.
    { unfold_main. rewrite EU. cbn. rewrite EG. cbn.
      rewrite range_groups. cbn. rewrite EA. reflexivity. }
    destruct (complete_policies ps (HLA _ _ EA)) as (pl & ->).
    destruct (PromptUserForPolicyVersionDetails TimeString c stdin)
      as [tb stdin' v] eqn:EB.
    cbn in HB. subst v.
    now rewrite (main_report c stdin name arn id created EU gl EG pl EA
                   tb stdin' EB).
  - exists noUser, []. split.
    + intros (H & _). destruct (H _ eq_refl) as (u & Hu & _).
      discriminate Hu.
    + reflexivity.
Qed.

(** *** Queries on a trace *)

Lemma interactive_not_list_query e :
  interactive e = true -> listQueryUser e = None.
Proof. destruct e as [line|tok|[] ok]; cbn; congruence. Qed.

Lemma in_interactive t e :
  forallb interactive t = true -> In e t -> listQueryUser e = None.
Proof.
  intros H Hin. rewrite forallb_forall in H.
  apply interactive_not_list_query; auto.
Qed.

Lemma in_quiet t e :
  forallb quiet t = true -> In e t -> listQueryUser e = None.
Proof. intros H. apply in_interactive, forallb_quiet_interactive, H. Qed.

Ltac split_in H :=
  repeat match type of H with
  | In _ (_ ++ _) => apply in_app_or in H
  | In _ (map EvPrint _) =>
      apply in_map_iff in H; destruct H as (? & H & _)
  | In _ (_ :: _) => destruct H as [H|H]
  | In _ [] => destruct H
  | _ \/ _ => destruct H as [H|H]
  end.

(** C9.  A per-user list query ([ListGroupsForUser],
    [ListAttachedUserPolicies], [ListUserPolicies]) on the trace of a
    run carries the user name of the user record that the
    current-user query returned, and that query is the first one of
    the run. *)
Theorem C9_list_queries_use_returned_name
    (sdkConfig : error + iam.Client Time) (stdin : list string)
    (e : event) (n : string) :
  In e (events (main TimeString sdkConfig stdin)) ->
  listQueryUser e = Some n ->
  exists c out u,
    sdkConfig = inr c
    /\ iam.GetUser c = inr out
    /\ iam.User out = Some u
    /\ types.User.UserName u = Some n
    /\ hd_error (requests (events (main TimeString sdkConfig stdin)))
       = Some iam.GetUserInput.
Proof.
  destruct sdkConfig as [err|c].
  { cbn. intros [<-|[<-|[]]]; discriminate. }
  run_main.
  all: intros Hin Hq.
  all: split_in Hin.
  all: try solve [subst e; discriminate Hq].
  all: try solve [
    match goal with
    | Q : forallb quiet ?t = true, H : In ?x ?t |- _ =>
        rewrite (in_quiet t x Q H) in Hq; discriminate Hq
    | Q : forallb interactive ?t = true, H : In ?x ?t |- _ =>
        rewrite (in_interactive t x Q H) in Hq; discriminate Hq
    end ].
  all: try contradiction.
  all: subst e; cbn in Hq; injection Hq as <-.
  all: eexists c, _, _; repeat split; try eassumption; reflexivity.
Qed.

(** *** The closing message *)

Lemma interactive_no_closing t :
  forallb interactive t = true ->
  existsb (String.eqb closing) (printed t) = false.
Proof.
  induction t as [|[line|tok|req ok] t IH]; cbn [forallb printed existsb];
    intros H; try reflexivity; apply andb_true_iff in H as [H1 H2]; auto.
  rewrite (IH H2), orb_false_r.
  destruct (String.eqb_spec closing line) as [<-|]; [|reflexivity].
  discriminate H1.
Qed.

Lemma interactive_no_query kind t :
  (forall req, isVersionRequest req = true -> kind req = false) ->
  forallb interactive t = true ->
  existsb (okQuery kind) t = false.
Proof.
  intros Hk.
  induction t as [|[line|tok|req ok] t IH]; cbn [forallb existsb okQuery];
    intros H; try reflexivity; apply andb_true_iff in H as [H1 H2]; auto.
  rewrite (IH H2), orb_false_r. destruct ok; [|reflexivity].
  apply Hk. unfold interactive in H1. cbn in H1.
  now rewrite orb_false_r in H1.
Qed.

Lemma version_not_top req :
  isVersionRequest req = true ->
  isGetUser req = false /\ isListGroups req = false /\
  isListAttached req = false /\ isListInline req = false.
Proof. destruct req; cbn; intros H; try discriminate H; auto. Qed.

(** What a segment of interactive events contributes to the five
    tests: nothing. *)
Lemma interactive_silent t :
  forallb interactive t = true ->
  existsb (String.eqb closing) (printed t) = false
  /\ existsb (okQuery isGetUser) t = false
  /\ existsb (okQuery isListGroups) t = false
  /\ existsb (okQuery isListAttached) t = false
  /\ existsb (okQuery isListInline) t = false.
Proof.
  intros H. split; [now apply interactive_no_closing|].
  repeat split; apply interactive_no_query; auto;
    intros req Hr; now apply version_not_top in Hr.
Qed.

Ltac silence :=
  repeat match goal with
  | |- context [map EvPrint (flat_map inlineLines ?ns)] =>
      lazymatch goal with
      | _ : forallb quiet (map EvPrint (flat_map inlineLines ns)) = true |- _ =>
          fail
      | _ => pose proof (inlineLines_quiet ns)
      end
  end;
  repeat match goal with
  | Q : forallb quiet ?t = true |- _ =>
      apply forallb_quiet_interactive in Q
  end;
  repeat match goal with
  | Q : forallb interactive ?t = true |- _ =>
      destruct (interactive_silent t Q) as (? & ? & ? & ? & ?); clear Q
  end.

#[local] Arguments printsClosing : simpl never.
#[local] Arguments querySucceeded : simpl never.

Lemma closing_query_equation c stdin :
  printsClosing (events (main TimeString (inr c) stdin)) =
    querySucceeded isGetUser (events (main TimeString (inr c) stdin))
    && querySucceeded isListGroups (events (main TimeString (inr c) stdin))
    && querySucceeded isListAttached (events (main TimeString (inr c) stdin))
    && querySucceeded isListInline (events (main TimeString (inr c) stdin)).
Proof.
  run_main.
  all: silence.
  all: unfold printsClosing, querySucceeded.
  all: repeat (cbn [printed existsb]; rewrite ?printed_app, ?existsb_app).
  all: repeat match goal with
       | H : existsb _ _ = false |- _ => rewrite H; clear H
       end.
  all: reflexivity.
Qed.

(** C10.  The closing message is written exactly when the four
    top-level queries (current user, groups, attached policies,
    inline policies) were made and succeeded.  The interactive part
    does not enter the condition: whether it was skipped, went
    through or failed, the equivalence is the same. *)
Theorem C10_closing_iff_top_level_queries_succeed
    (c : iam.Client Time) (stdin : list string) :
  printsClosing (events (main TimeString (inr c) stdin)) = true <->
  (querySucceeded isGetUser (events (main TimeString (inr c) stdin)) = true
   /\ querySucceeded isListGroups (events (main TimeString (inr c) stdin)) = true
   /\ querySucceeded isListAttached (events (main TimeString (inr c) stdin)) = true
   /\ querySucceeded isListInline (events (main TimeString (inr c) stdin)) = true).
Proof.
  rewrite closing_query_equation, !andb_true_iff. tauto.
Qed.

(** *** Failures of the top-level queries *)

Lemma scanned_app t t' : scanned (t ++ t') = scanned t ++ scanned t'.
Proof.
  induction t as [|[line|tok|req ok] t IH]; cbn; rewrite ?IH; reflexivity.
Qed.

Lemma scanned_map l : scanned (map EvPrint l) = [].
Proof. induction l as [|x l IH]; cbn; rewrite ?IH; reflexivity. Qed.

(** X1.  When the configuration cannot be loaded, [main] writes the
    advice and the error and returns: no client exists, so no query
    is sent, and nothing is read. *)
Theorem X1_configuration_failure (err : error) (stdin : list string) :
  main TimeString (inl err : error + iam.Client Time) stdin =
    mkRes [ EvPrint ("Couldn't load default configuration. Have you set up your AWS account?" ++ LF);
            EvPrint (err ++ LF) ]
          stdin (Some tt)
  /\ requests (events (main TimeString (inl err : error + iam.Client Time) stdin)) = []
  /\ scanned (events (main TimeString (inl err : error + iam.Client Time) stdin)) = [].
Proof. repeat split. Qed.

(** X2.  When the groups query fails after the identity was printed,
    the run ends there: the message of [ListUserGroups] with the
    error, the message of [main], and nothing else.  The
    attached-policies query, the question of the interactive part and
    the inline-policies query are not reached, and nothing is read. *)
Theorem X2_groups_failure_is_fatal
    (c : iam.Client Time) (stdin : list string)
    (name arn id : string) (created : Time) (err : error) :
  iam.GetUser c =
    inr (iam.Build_GetUserOutput (Some (userOf (name, arn, id, created)))) ->
  iam.ListGroupsForUser c name = inl err ->
  main TimeString (inr c) stdin =
    mkRes (opening true
           ++ map EvPrint (identityLines TimeString (name, arn, id, created))
           ++ groupsHeader name false
           ++ [ EvPrint ("Couldn't get the groups for the user. Here's why: "
                         ++ err ++ LF);
                EvPrint ("Couldn't get groups for the current user. Exiting..."
                         ++ LF) ])
          stdin (Some tt)
  /\ requests (events (main TimeString (inr c) stdin)) =
       [iam.GetUserInput; iam.ListGroupsForUserInput name]
  /\ scanned (events (main TimeString (inr c) stdin)) = [].
Proof.
  intros HU HG.
  assert (E : main TimeString (inr c) stdin =
    mkRes (opening true
           ++ map EvPrint (identityLines TimeString (name, arn, id, created))
           ++ groupsHeader name false
           ++ [ EvPrint ("Couldn't get the groups for the user. Here's why: "
                         ++ err ++ LF);
                EvPrint ("Couldn't get groups for the current user. Exiting..."
                         ++ LF) ])
          stdin (Some tt)).
  { unfold_main. rewrite HU. cbn. rewrite HG. reflexivity. }
  rewrite E. repeat split.
Qed.

(** X3.  When the attached-policies query fails after the groups were
    printed, the run ends there with the message of
    [ListAttachedUserPolicies] and the message of [main]: the
    question of the interactive part is not asked, nothing is read,
    and the inline-policies query is not sent. *)
Theorem X3_attached_failure_is_fatal
    (c : iam.Client Time) (stdin : list string)
    (name arn id : string) (created : Time)
    (gl : list (string * string * string * Time)) (err : error) :
  iam.GetUser c =
    inr (iam.Build_GetUserOutput (Some (userOf (name, arn, id, created)))) ->
  iam.ListGroupsForUser c name =
    inr (iam.Build_ListGroupsForUserOutput (map groupOf gl)) ->
  iam.ListAttachedUserPolicies c name = inl err ->
  main TimeString (inr c) stdin =
    mkRes (opening true
           ++ map EvPrint (identityLines TimeString (name, arn, id, created))
           ++ groupsHeader name true
           ++ map EvPrint (flat_map (groupLines TimeString) gl)
           ++ attachedHeader name false
           ++ [ EvPrint ("Couldn't get the policies attached to the user. Here's why: "
                         ++ err ++ LF);
                EvPrint ("Couldn't get attached policies for the current user. Exiting..."
                         ++ LF) ])
          stdin (Some tt)
  /\ requests (events (main TimeString (inr c) stdin)) =
       [iam.GetUserInput; iam.ListGroupsForUserInput name;
        iam.ListAttachedUserPoliciesInput name]
  /\ scanned (events (main TimeString (inr c) stdin)) = [].
Proof.
  intros HU HG HA.
  assert (E : main TimeString (inr c) stdin =
    mkRes (opening true
           ++ map EvPrint (identityLines TimeString (name, arn, id, created))
           ++ groupsHeader name true
           ++ map EvPrint (flat_map (groupLines TimeString) gl)
           ++ attachedHeader name false
           ++ [ EvPrint ("Couldn't get the policies attached to the user. Here's why: "
                         ++ err ++ LF);
                EvPrint ("Couldn't get attached policies for the current user. Exiting..."
                         ++ LF) ])
          stdin (Some tt)).
  { unfold_main. rewrite HU. cbn. rewrite HG. cbn. rewrite range_groups. cbn.
    rewrite HA. reflexivity. }
  rewrite E. cbn [events]. split; [reflexivity|].
  rewrite !requests_app, !requests_map.
  split; [reflexivity|].
  rewrite !scanned_app, !scanned_map. reflexivity.
Qed.

Lemma groupLines_no_closing gl :
  existsb (String.eqb closing) (flat_map (groupLines TimeString) gl) = false.
Proof. induction gl as [|[[[n a] i] d] gl IH]; [reflexivity|exact IH]. Qed.

Lemma attachedLines_no_closing pl :
  existsb (String.eqb closing) (flat_map attachedLines pl) = false.
Proof. induction pl as [|[n a] pl IH]; [reflexivity|exact IH]. Qed.

(** X4.  When the inline-policies query fails, after the interactive
    part returned, the run ends with the message of
    [ListInlineUserPolicies] and the message of [main]; the closing
    message is not written. *)
Theorem X4_inline_failure_is_fatal
    (c : iam.Client Time) (stdin : list string)
    (name arn id : string) (created : Time)
    (gl : list (string * string * string * Time))
    (pl : list (string * string))
    (tb : list event) (stdin' : list string) (err : error) :
  iam.GetUser c =
    inr (iam.Build_GetUserOutput (Some (userOf (name, arn, id, created)))) ->
  iam.ListGroupsForUser c name =
    inr (iam.Build_ListGroupsForUserOutput (map groupOf gl)) ->
  iam.ListAttachedUserPolicies c name =
    inr (iam.Build_ListAttachedUserPoliciesOutput (map policyOf pl)) ->
  PromptUserForPolicyVersionDetails TimeString c stdin =
    mkRes tb stdin' (Some tt) ->
  iam.ListUserPolicies c name = inl err ->
  main TimeString (inr c) stdin =
    mkRes (opening true
           ++ map EvPrint (identityLines TimeString (name, arn, id, created))
           ++ groupsHeader name true
           ++ map EvPrint (flat_map (groupLines TimeString) gl)
           ++ attachedHeader name true
           ++ map EvPrint (flat_map attachedLines pl)
           ++ tb
           ++ inlineHeader name false
           ++ [ EvPrint ("Couldn't get the inline policies attached to the user. Here's why: "
                         ++ err ++ LF);
                EvPrint ("Couldn't get inline policies for the current user. Exiting..."
                         ++ LF) ])
          stdin' (Some tt)
  /\ printsClosing (events (main TimeString (inr c) stdin)) = false.
Proof.
  intros HU HG HA HB HI.
  rewrite (main_report c stdin name arn id created HU gl HG pl HA tb stdin' HB).
  rewrite HI. split; [reflexivity|].
  destruct (prompt_interactive c stdin) as (t & s' & v & E & Q).
  rewrite HB in E. injection E as <- _ _.
  destruct (interactive_silent tb Q) as (Hc & _).
  unfold printsClosing. cbn [events inlinePart].
  rewrite !printed_app, !printed_map, !existsb_app, Hc.
  rewrite groupLines_no_closing, attachedLines_no_closing. reflexivity.
Qed.

(** *** The outcomes of the interactive part *)

(** X5.  After the answer "y", when the list of versions is refused,
    the interactive part writes the message of
    [ListLatestPolicyVersions] with the error and its own message,
    and returns.  It has read two tokens only: the version id is not
    asked for, and the third token stays on standard input. *)
Theorem X5_versions_list_refused
    (c : iam.Client Time) (stdin : list string) (err : error) :
  nth 0 stdin ""%string = "y"%string ->
  iam.ListPolicyVersions c (nth 1 stdin ""%string) = inl err ->
  PromptUserForPolicyVersionDetails TimeString c stdin =
    mkRes [ EvPrint headPrompt; EvScan "y";
            EvPrint "Enter the ARN of the policy: ";
            EvScan (nth 1 stdin ""%string);
            EvPrint ("Available versions: " ++ LF);
            EvCall (iam.ListPolicyVersionsInput (nth 1 stdin ""%string)) false;
            EvPrint ("Couldn't get details for the policy version. Here's why: "
                     ++ err ++ LF);
            EvPrint ("Couldn't get details for the policy version" ++ LF) ]
          (skipn 2 stdin) (Some tt).
Proof.
  intros Hy Hl. unfold_driver.
  destruct stdin as [|input [|arn' [|vid s]]]; cbn in Hy, Hl |- *;
    try discriminate Hy; subst input; cbn; rewrite Hl; reflexivity.
Qed.

Section Listed.
Variables (c : iam.Client Time) (stdin : list string).
Variable vl : list (string * Time * option string).
Hypothesis Hy : nth 0 stdin ""%string = "y"%string.
Hypothesis Hl :
  iam.ListPolicyVersions c (nth 1 stdin ""%string) =
    inr (iam.Build_ListPolicyVersionsOutput (map listedOf vl)).

Lemma prompt_version_refused err :
  iam.GetPolicyVersion c (nth 1 stdin ""%string) (nth 2 stdin ""%string)
    = inl err ->
  PromptUserForPolicyVersionDetails TimeString c stdin =
    mkRes (listing TimeString stdin vl
           ++ [ EvCall (iam.GetPolicyVersionInput (nth 1 stdin ""%string)
                          (nth 2 stdin ""%string)) false;
                EvPrint ("Couldn't get details for the policy version. Here's why: "
                         ++ err ++ LF);
                EvPrint ("Couldn't get details for the policy version" ++ LF) ])
          (skipn 3 stdin) (Some tt).
Proof.
  intros Hg. unfold_driver. unfold listing.
  destruct stdin as [|input [|arn' [|vid s]]]; cbn in Hy, Hl, Hg |- *;
    try discriminate Hy; subst input; cbn; rewrite Hl; cbn;
    rewrite range_versions; cbn; rewrite Hg; cbn;
    rewrite <- ?app_assoc; reflexivity.
Qed.

Lemma prompt_version_fetched i d doc :
  iam.GetPolicyVersion c (nth 1 stdin ""%string) (nth 2 stdin ""%string)
    = inr (iam.Build_GetPolicyVersionOutput (Some (versionOf (i, d, doc)))) ->
  PromptUserForPolicyVersionDetails TimeString c stdin =
    mkRes (listing TimeString stdin vl
           ++ [ EvCall (iam.GetPolicyVersionInput (nth 1 stdin ""%string)
                          (nth 2 stdin ""%string)) true;
                EvPrint (MAJOR_SEPARATOR ++ LF);
                EvPrint headVersion;
                EvPrint (TAB ++ "Version ID: " ++ i ++ LF);
                EvPrint (TAB ++ "Created on: " ++ TimeString d ++ LF) ]
           ++ match url.QueryUnescape doc with
              | inl _ =>
                  [ EvPrint ("Couldn't encode the document. Exiting..." ++ LF) ]
              | inr decodedDocument =>
                  [ EvPrint (TAB ++ "Document: " ++ LF ++ decodedDocument ++ LF);
                    EvPrint (MAJOR_SEPARATOR ++ LF) ]
              end)
          (skipn 3 stdin) (Some tt).
Proof.
  intros Hg. unfold_driver. unfold listing.
  destruct stdin as [|input [|arn' [|vid s]]]; cbn in Hy, Hl, Hg |- *;
    try discriminate Hy; subst input; cbn; rewrite Hl; cbn;
    rewrite range_versions; cbn; rewrite Hg; cbn;
    destruct (url.QueryUnescape doc); cbn;
    rewrite <- ?app_assoc; reflexivity.
Qed.
End Listed.

(** X6.  After the answer "y" and a list of versions, when the
    version asked for is refused, the interactive part has listed the
    versions, read the version id (three tokens in all), and ends with
    the message of [GetPolicyVersionDetails] with the error and its
    own message; no detail of a version is written. *)
Theorem X6_version_refused
    (c : iam.Client Time) (stdin : list string)
    (vl : list (string * Time * option string)) (err : error) :
  nth 0 stdin ""%string = "y"%string ->
  iam.ListPolicyVersions c (nth 1 stdin ""%string) =
    inr (iam.Build_ListPolicyVersionsOutput (map listedOf vl)) ->
  iam.GetPolicyVersion c (nth 1 stdin ""%string) (nth 2 stdin ""%string)
    = inl err ->
  PromptUserForPolicyVersionDetails TimeString c stdin =
    mkRes (listing TimeString stdin vl
           ++ [ EvCall (iam.GetPolicyVersionInput (nth 1 stdin ""%string)
                          (nth 2 stdin ""%string)) false;
                EvPrint ("Couldn't get details for the policy version. Here's why: "
                         ++ err ++ LF);
                EvPrint ("Couldn't get details for the policy version" ++ LF) ])
          (skipn 3 stdin) (Some tt).
Proof. intros Hy Hl Hg. now apply prompt_version_refused. Qed.

(** X7.  After the answer "y", a list of versions and a version with
    its three fields, the interactive part writes the head of the
    details, the identifier and the date of the version as returned,
    and then the document: decoded, followed by a major separator,
    when the decoding succeeds; when it fails, the identifier and the
    date stay written and one failure message follows, with no
    document and no separator.  In both cases the function returns
    with three tokens read. *)
Theorem X7_version_details
    (c : iam.Client Time) (stdin : list string)
    (vl : list (string * Time * option string))
    (i : string) (d : Time) (doc : string) :
  nth 0 stdin ""%string = "y"%string ->
  iam.ListPolicyVersions c (nth 1 stdin ""%string) =
    inr (iam.Build_ListPolicyVersionsOutput (map listedOf vl)) ->
  iam.GetPolicyVersion c (nth 1 stdin ""%string) (nth 2 stdin ""%string)
    = inr (iam.Build_GetPolicyVersionOutput (Some (versionOf (i, d, doc)))) ->
  PromptUserForPolicyVersionDetails TimeString c stdin =
    mkRes (listing TimeString stdin vl
           ++ [ EvCall (iam.GetPolicyVersionInput (nth 1 stdin ""%string)
                          (nth 2 stdin ""%string)) true;
                EvPrint (MAJOR_SEPARATOR ++ LF);
                EvPrint headVersion;
                EvPrint (TAB ++ "Version ID: " ++ i ++ LF);
                EvPrint (TAB ++ "Created on: " ++ TimeString d ++ LF) ]
           ++ match url.QueryUnescape doc with
              | inl _ =>
                  [ EvPrint ("Couldn't encode the document. Exiting..." ++ LF) ]
              | inr decodedDocument =>
                  [ EvPrint (TAB ++ "Document: " ++ LF ++ decodedDocument ++ LF);
                    EvPrint (MAJOR_SEPARATOR ++ LF) ]
              end)
          (skipn 3 stdin) (Some tt).
Proof. intros Hy Hl Hg. now apply prompt_version_fetched. Qed.

(** X8.  When the document of the version is the URL-encoding of a
    text, the interactive part writes that text itself, unchanged, as
    the document, and ends with the major separator: the failure
    message of the decoding is never written for an encoded
    document. *)
Theorem X8_encoded_document_printed_decoded
    (c : iam.Client Time) (stdin : list string)
    (vl : list (string * Time * option string))
    (i : string) (d : Time) (json : string) :
  nth 0 stdin ""%string = "y"%string ->
  iam.ListPolicyVersions c (nth 1 stdin ""%string) =
    inr (iam.Build_ListPolicyVersionsOutput (map listedOf vl)) ->
  iam.GetPolicyVersion c (nth 1 stdin ""%string) (nth 2 stdin ""%string)
    = inr (iam.Build_GetPolicyVersionOutput
             (Some (versionOf (i, d, url.PercentEncode json)))) ->
  PromptUserForPolicyVersionDetails TimeString c stdin =
    mkRes (listing TimeString stdin vl
           ++ [ EvCall (iam.GetPolicyVersionInput (nth 1 stdin ""%string)
                          (nth 2 stdin ""%string)) true;
                EvPrint (MAJOR_SEPARATOR ++ LF);
                EvPrint headVersion;
                EvPrint (TAB ++ "Version ID: " ++ i ++ LF);
                EvPrint (TAB ++ "Created on: " ++ TimeString d ++ LF);
                EvPrint (TAB ++ "Document: " ++ LF ++ json ++ LF);
                EvPrint (MAJOR_SEPARATOR ++ LF) ])
          (skipn 3 stdin) (Some tt)
  /\ failureMessages
       (events (PromptUserForPolicyVersionDetails TimeString c stdin)) = [].
Proof.
  intros Hy Hl Hg.
  rewrite (prompt_version_fetched c stdin vl Hy Hl i d _ Hg).
  unfold url.PercentEncode. rewrite url_facts.unescape_escape.
  split; [reflexivity|].
  unfold failureMessages, listing. cbn [events].
  rewrite !printed_app, !printed_map, !filter_app.
  assert (V : filter isFailureMessage (flat_map (versionLines TimeString) vl) = []).
  { clear. induction vl as [|[[i' d'] doc'] vl' IH]; [reflexivity|exact IH]. }
  rewrite V. reflexivity.
Qed.

(** *** A panic in the interactive part *)

(** X9.  A nil-pointer panic in the interactive part is not local to
    it: when the prompt function panics in a run that reached it,
    [main] stops there too.  The inline-policies query is not sent and
    the closing message is not written. *)
Theorem X9_branch_panic_stops_main
    (c : iam.Client Time) (stdin : list string)
    (name arn id : string) (created : Time)
    (gl : list (string * string * string * Time))
    (pl : list (string * string)) :
  iam.GetUser c =
    inr (iam.Build_GetUserOutput (Some (userOf (name, arn, id, created)))) ->
  iam.ListGroupsForUser c name =
    inr (iam.Build_ListGroupsForUserOutput (map groupOf gl)) ->
  iam.ListAttachedUserPolicies c name =
    inr (iam.Build_ListAttachedUserPoliciesOutput (map policyOf pl)) ->
  value (PromptUserForPolicyVersionDetails TimeString c stdin) = None ->
  main TimeString (inr c) stdin =
    mkRes (opening true
           ++ map EvPrint (identityLines TimeString (name, arn, id, created))
           ++ groupsHeader name true
           ++ map EvPrint (flat_map (groupLines TimeString) gl)
           ++ attachedHeader name true
           ++ map EvPrint (flat_map attachedLines pl)
           ++ events (PromptUserForPolicyVersionDetails TimeString c stdin))
          (rest (PromptUserForPolicyVersionDetails TimeString c stdin)) None
  /\ querySucceeded isListInline (events (main TimeString (inr c) stdin)) = false
  /\ printsClosing (events (main TimeString (inr c) stdin)) = false.
Proof.
  intros HU HG HA HB.
  destruct (prompt_interactive c stdin) as (tb & s' & v & E & Q).
  rewrite E in HB |- *. cbn in HB. subst v. cbn [events rest].
  assert (M : main TimeString (inr c) stdin =
    mkRes (opening true
           ++ map EvPrint (identityLines TimeString (name, arn, id, created))
           ++ groupsHeader name true
           ++ map EvPrint (flat_map (groupLines TimeString) gl)
           ++ attachedHeader name true
           ++ map EvPrint (flat_map attachedLines pl)
           ++ tb) s' None).
  { unfold_main. rewrite HU. cbn. rewrite HG. cbn. rewrite range_groups. cbn.
    rewrite HA. cbn. rewrite range_attached. cbn. rewrite E. reflexivity. }
  rewrite M. split; [reflexivity|].
  destruct (interactive_silent tb Q) as (Hc & _ & _ & _ & Hi).
  unfold querySucceeded, printsClosing. cbn [events].
  rewrite !printed_app, !printed_map, !existsb_app, Hc, Hi.
  rewrite groupLines_no_closing, attachedLines_no_closing.
  assert (L : forall l, existsb (okQuery isListInline) (map EvPrint l) = false).
  { clear. induction l; [reflexivity|assumption]. }
  rewrite !L. split; reflexivity.
Qed.

(** *** Every path of a run *)

Lemma range_forall {A} (P : event -> bool) (body : A -> M unit) :
  (forall x s, exists t v, body x s = mkRes t s v /\ forallb P t = true) ->
  forall l s, exists t v,
    range l body s = mkRes t s v /\ forallb P t = true.
Proof.
  intros Hb l s. induction l as [|x l IH]; cbn [range].
  - exists [], (Some tt). split; reflexivity.
  - unfold bind. destruct (Hb x s) as (t1 & v1 & -> & Q1).
    destruct v1 as [[]|].
    + destruct IH as (t2 & v2 & -> & Q2).
      exists (t1 ++ t2), v2. split; [reflexivity|].
      rewrite forallb_app, Q1, Q2. reflexivity.
    + exists t1, None. split; [reflexivity|assumption].
Qed.

Lemma printGroup_items g s :
  exists t v, printGroup TimeString g s = mkRes t s v
              /\ forallb itemLine t = true.
Proof.
  destruct g as [[n|] [a|] [i|] [d|]];
    unfold printGroup, bind; cbn; eexists _, _; split; reflexivity.
Qed.

Lemma printAttachedPolicy_items p s :
  exists t v, printAttachedPolicy p s = mkRes t s v
              /\ forallb itemLine t = true.
Proof.
  destruct p as [[n|] [a|]];
    unfold printAttachedPolicy, bind; cbn; eexists _, _; split; reflexivity.
Qed.

Lemma printVersion_plain x s :
  exists t v, printVersion TimeString x s = mkRes t s v
              /\ forallb plainLine t = true.
Proof.
  destruct x as [[i|] [d|] doc];
    unfold printVersion, bind; cbn; eexists _, _; split; reflexivity.
Qed.

Lemma plain_item t : forallb plainLine t = true -> forallb itemLine t = true.
Proof.
  induction t as [|[line|tok|req ok] t IH]; cbn; try discriminate; auto.
  intros H. apply andb_true_iff in H as [H1 H2].
  apply andb_true_iff in H1 as [H1 _]. rewrite H1. auto.
Qed.

(** Lines of items carry no request and no read, and do not change
    what came before them. *)
Lemma item_requests t : forallb itemLine t = true -> requests t = [].
Proof.
  induction t as [|[line|tok|req ok] t IH]; cbn; try discriminate; auto.
  intros H. apply andb_true_iff in H as [_ H]. auto.
Qed.

Lemma item_scanned t : forallb itemLine t = true -> scanned t = [].
Proof.
  induction t as [|[line|tok|req ok] t IH]; cbn; try discriminate; auto.
  intros H. apply andb_true_iff in H as [_ H]. auto.
Qed.

Lemma plain_no_minor t :
  forallb plainLine t = true -> filter isMinorLine (printed t) = [].
Proof.
  induction t as [|[line|tok|req ok] t IH]; cbn; try discriminate; auto.
  intros H. apply andb_true_iff in H as [H1 H2].
  apply andb_true_iff in H1 as [_ H1]. apply negb_true_iff in H1.
  rewrite H1. auto.
Qed.

Lemma lastLineFrom_app d t t' :
  lastLineFrom d (t ++ t') = lastLineFrom (lastLineFrom d t) t'.
Proof.
  revert d. induction t as [|[line|tok|req ok] t IH]; intros d; cbn; auto.
Qed.

Lemma lastLineFrom_last t : forall d, lastLineFrom d t = last (printed t) d.
Proof.
  induction t as [|[line|tok|req ok] t IH]; intros d; cbn [lastLineFrom printed];
    auto.
  rewrite IH. destruct (printed t) as [|x l]; [reflexivity|].
  cbn [last]. clear. revert x. induction l as [|y l IH]; intros x; auto.
  cbn [last] in *. apply IH.
Qed.

Ltac loop_items :=
  match goal with
  | |- context [range ?l (printVersion ?ts) ?s] =>
      let Q := fresh "Q" in
      destruct (range_forall plainLine _ (printVersion_plain) l s)
        as (? & [[]|] & -> & Q)
  | |- context [range ?l (printGroup ?ts) ?s] =>
      let Q := fresh "Q" in
      destruct (range_forall itemLine _ (printGroup_items) l s)
        as (? & [[]|] & -> & Q)
  | |- context [range ?l printAttachedPolicy ?s] =>
      let Q := fresh "Q" in
      destruct (range_forall itemLine _ (printAttachedPolicy_items) l s)
        as (? & [[]|] & -> & Q)
  | |- context [range ?l printInlinePolicy ?s] =>
      rewrite (range_inline l s)
  end; cbn.

(** Every path of [main] and of the interactive part in it, for the
    four shapes of standard input (no token, one, two, three or
    more). *)
Ltac all_paths stdin :=
  unfold_driver;
  destruct stdin as [|?input [|?arn [|?vid ?s]]]; cbn;
  repeat first
    [ main_step | call_step | loop_items
    | match goal with
      | |- context [String.eqb ?i "y"] =>
          is_var i; destruct (String.eqb i "y") eqn:?; cbn
      end ].

Ltac forget_items :=
  repeat match goal with
  | Q : forallb plainLine ?t = true |- _ => apply plain_item in Q
  end;
  repeat match goal with
  | Q : forallb itemLine ?t = true |- _ =>
      pose proof (item_requests t Q); pose proof (item_scanned t Q); clear Q
  end.

Ltac start_of :=
  unfold startOf, protocol, branchProtocol; cbn; eexists; reflexivity.

Ltac protocol_goal :=
  first [ exists ""%string;
          first [ left; start_of | right; left; start_of
                | right; right; start_of ]
        | eexists;
          first [ left; start_of | right; left; start_of
                | right; right; start_of ] ].

Lemma main_paths c stdin r :
  main TimeString (inr c) stdin = r ->
  (exists n,
     startOf (requests (events r)) (protocol n [])
     \/ startOf (requests (events r))
          (protocol n (firstn 1 (branchProtocol stdin)))
     \/ startOf (requests (events r)) (protocol n (branchProtocol stdin)))
  /\ (scanned (events r) =
        firstn (length (scanned (events r)))
          [nth 0 stdin ""%string; nth 1 stdin ""%string; nth 2 stdin ""%string]
      /\ rest r = skipn (length (scanned (events r))) stdin)
  /\ (value r = Some tt -> In (lastLineFrom ""%string (events r)) endings).
Proof.
  all_paths stdin.
  all: intros <-; cbn [events rest value].
  all: forget_items.
  all: repeat (rewrite ?requests_app, ?scanned_app, ?lastLineFrom_app,
                 ?requests_map, ?scanned_map; cbn).
  all: repeat match goal with
       | H : requests ?x = [] |- _ => rewrite H; clear H
       | H : scanned ?x = [] |- _ => rewrite H; clear H
       end; cbn.
  all: split; [try protocol_goal|split; [split; reflexivity|]].
  all: try discriminate.
  all: intros _; unfold endings; cbn; auto 10.
Qed.

(** X10.  The requests of a run follow one fixed order and none is
    sent twice: the current user, then the groups and the attached
    policies of one user name, then the requests of the interactive
    part (none, or the list of versions of the policy whose ARN is the
    second token, or that list and then the version whose id is the
    third token, for the same ARN), then the inline policies of the
    same user name.  The requests of every run are a beginning of such
    a sequence. *)
Theorem X10_request_order
    (c : iam.Client Time) (stdin : list string) :
  exists n,
    startOf (requests (events (main TimeString (inr c) stdin))) (protocol n [])
    \/ startOf (requests (events (main TimeString (inr c) stdin)))
         (protocol n (firstn 1 (branchProtocol stdin)))
    \/ startOf (requests (events (main TimeString (inr c) stdin)))
         (protocol n (branchProtocol stdin)).
Proof. exact (proj1 (main_paths c stdin _ eq_refl)). Qed.

(** X11.  A run reads at most three tokens, and reads them in order
    from the front of standard input: the tokens read are a beginning
    of the first three (the empty token standing for a missing one),
    and what is left of standard input is the input without as many
    tokens as were read. *)
Theorem X11_reads_front_of_input
    (c : iam.Client Time) (stdin : list string) :
  scanned (events (main TimeString (inr c) stdin)) =
    firstn (length (scanned (events (main TimeString (inr c) stdin))))
      [nth 0 stdin ""%string; nth 1 stdin ""%string; nth 2 stdin ""%string]
  /\ rest (main TimeString (inr c) stdin) =
       skipn (length (scanned (events (main TimeString (inr c) stdin)))) stdin.
Proof. exact (proj1 (proj2 (main_paths c stdin _ eq_refl))). Qed.

(** X12.  A run of [main] that returns (does not panic) never ends
    silently: the last line it wrote is the closing message, or the
    message of [main] for the top-level query that failed. *)
Theorem X12_last_line_on_return
    (c : iam.Client Time) (stdin : list string) :
  value (main TimeString (inr c) stdin) = Some tt ->
  In (last (printed (events (main TimeString (inr c) stdin))) ""%string)
     endings.
Proof.
  intros H. rewrite <- lastLineFrom_last.
  exact (proj2 (proj2 (main_paths c stdin _ eq_refl)) H).
Qed.

(** *** One block per item *)

Lemma prompt_no_minor c s :
  filter isMinorLine
    (printed (events (PromptUserForPolicyVersionDetails TimeString c s))) = [].
Proof.
  unfold_driver.
  destruct s as [|input [|arn' [|vid s]]]; cbn.
  all: try (destruct (String.eqb input "y"); cbn).
  all: repeat first [call_step | loop_items].
  all: try reflexivity.
  all: rewrite ?printed_app, ?filter_app;
       repeat match goal with
       | Q : forallb plainLine ?t = true |- _ =>
           rewrite (plain_no_minor t Q); clear Q
       end; reflexivity.
Qed.

Lemma groupLines_minor gl :
  length (filter isMinorLine (flat_map (groupLines TimeString) gl)) = length gl.
Proof.
  induction gl as [|[[[n a] i] d] gl IH]; [reflexivity|].
  cbn. now rewrite IH.
Qed.

Lemma attachedLines_minor pl :
  length (filter isMinorLine (flat_map attachedLines pl)) = length pl.
Proof.
  induction pl as [|[n a] pl IH]; [reflexivity|].
  cbn. now rewrite IH.
Qed.

Lemma inlineLines_minor ns :
  length (filter isMinorLine (flat_map inlineLines ns)) = length ns.
Proof.
  induction ns as [|n ns IH]; [reflexivity|].
  cbn. now rewrite IH.
Qed.

(** X13.  In a run whose four top-level queries succeed and whose
    interactive part returns, the minor separator is written once per
    item and nowhere else: the number of minor-separator lines in the
    output is the number of groups plus the number of attached
    policies plus the number of inline policy names, whatever the
    interactive part wrote. *)
Theorem X13_one_block_per_item
    (c : iam.Client Time) (stdin : list string)
    (name arn id : string) (created : Time)
    (gl : list (string * string * string * Time))
    (pl : list (string * string)) (ns : list string)
    (tb : list event) (stdin' : list string) :
  iam.GetUser c =
    inr (iam.Build_GetUserOutput (Some (userOf (name, arn, id, created)))) ->
  iam.ListGroupsForUser c name =
    inr (iam.Build_ListGroupsForUserOutput (map groupOf gl)) ->
  iam.ListAttachedUserPolicies c name =
    inr (iam.Build_ListAttachedUserPoliciesOutput (map policyOf pl)) ->
  PromptUserForPolicyVersionDetails TimeString c stdin =
    mkRes tb stdin' (Some tt) ->
  iam.ListUserPolicies c name = inr (iam.Build_ListUserPoliciesOutput ns) ->
  countMinor (events (main TimeString (inr c) stdin)) =
    (length gl + length pl + length ns)%nat.
Proof.
  intros HU HG HA HB HI.
  rewrite (main_report c stdin name arn id created HU gl HG pl HA tb stdin' HB).
  rewrite HI. unfold countMinor, inlinePart. cbn [events iam.PolicyNames].
  pose proof (prompt_no_minor c stdin) as Hb. rewrite HB in Hb.
  cbn [events] in Hb.
  rewrite !printed_app, !printed_map, !filter_app, !length_app.
  rewrite Hb, groupLines_minor, attachedLines_minor, inlineLines_minor.
  cbn. lia.
Qed.

End DriverFacts.

(** C1, as stated, fails: with the current-user query refused, two
    failure messages are printed, not one. *)
Lemma C1_two_failure_messages :
  iam.GetUser sample.denied = inl "AccessDenied" /\
  length (failureMessages
            (events (main sample.TimeString (inr sample.denied) []))) = 2%nat /\
  length (failureMessages
            (events (main sample.TimeString (inr sample.denied) []))) <> 1%nat.
Proof. vm_compute. repeat split. discriminate. Qed.

Lemma C1_current_user_failure_witness :
  iam.GetUser sample.denied = inl "AccessDenied" /\
  requests (events (main sample.TimeString (inr sample.denied) ["y"]))
    = [iam.GetUserInput].
Proof.
  split; [reflexivity|].
  apply (C1_current_user_failure sample.Time sample.TimeString sample.denied ["y"]
           "AccessDenied" eq_refl).
Defined.

Lemma C3_answer_not_y_witness :
  events (PromptUserForPolicyVersionDetails sample.TimeString sample.client
            ["n"; "arn"; "v1"]) =
    [ EvPrint "Do you want the details of any policy's version? (y/n): ";
      EvScan "n" ].
Proof.
  rewrite (C3_answer_not_y sample.Time sample.TimeString sample.client
             ["n"; "arn"; "v1"]).
  - reflexivity.
  - cbn. discriminate.
Defined.

(** C2, as stated, fails: the list of versions is refused, so the
    interactive part fails; [main] goes on and sends the inline-policy
    query, but that query is refused too, and the closing message is
    not written. *)
Lemma C2_closing_not_printed :
  BranchFailure sample.flaky ["y"; "arn:aws:iam::aws:policy/ReadOnlyAccess"] /\
  In (iam.ListUserPoliciesInput "alice")
     (requests (events (main sample.TimeString (inr sample.flaky)
                          ["y"; "arn:aws:iam::aws:policy/ReadOnlyAccess"]))) /\
  printsClosing (events (main sample.TimeString (inr sample.flaky)
                           ["y"; "arn:aws:iam::aws:policy/ReadOnlyAccess"]))
    = false.
Proof.
  split; [|split].
  - apply ListVersionsFails with (err := "Throttling"); reflexivity.
  - vm_compute. auto 10.
  - vm_compute. reflexivity.
Qed.

Lemma C2_branch_failure_is_local_witness :
  BranchFailure sample.throttled ["y"; "arn:aws:iam::aws:policy/ReadOnlyAccess"] /\
  last (printed (events (main sample.TimeString (inr sample.throttled)
                           ["y"; "arn:aws:iam::aws:policy/ReadOnlyAccess"])))
       "" = closing.
Proof.
  assert (HF : BranchFailure sample.throttled
                 ["y"; "arn:aws:iam::aws:policy/ReadOnlyAccess"]).
  { apply ListVersionsFails with (err := "Throttling"); reflexivity. }
  split; [exact HF|].
  destruct (C2_branch_failure_is_local sample.Time sample.TimeString
              sample.throttled ["y"; "arn:aws:iam::aws:policy/ReadOnlyAccess"]
              "alice" "arn:aws:iam::123456789012:user/alice" "AIDAEXAMPLE"
              1700000000%Z
              [("devs", "arn:aws:iam::123456789012:group/devs", "AGPAEXAMPLE",
                1600000000%Z)]
              [("ReadOnlyAccess", "arn:aws:iam::aws:policy/ReadOnlyAccess")]
              eq_refl eq_refl eq_refl HF)
    as (tb & stdin' & _ & _ & _ & H).
  exact (H _ eq_refl).
Defined.

Lemma C5_empty_list_prints_header_only_witness :
  main sample.TimeString (inr sample.bare) ["n"] =
    mkRes (opening true
           ++ map EvPrint (identityLines sample.TimeString
                (("alice", "arn:aws:iam::123456789012:user/alice",
                  "AIDAEXAMPLE", 1700000000%Z)))
           ++ groupsHeader "alice" true
           ++ attachedHeader "alice" true
           ++ [EvPrint headPrompt; EvScan "n"]
           ++ inlineHeader "alice" true
           ++ [EvPrint closing])%list [] (Some tt).
Proof.
  apply (proj2 (proj2
    (C5_empty_list_prints_header_only sample.Time sample.TimeString
       sample.bare ["n"] "alice" "arn:aws:iam::123456789012:user/alice"
       "AIDAEXAMPLE" 1700000000%Z eq_refl)) [] []
    [EvPrint headPrompt; EvScan "n"] []);
    reflexivity.
Defined.

Lemma C6_fields_printed_verbatim_witness :
  exists tail,
    printed (events (main sample.TimeString (inr sample.client) ["n"])) =
      ([ ("Getting details for the current user..." ++ LF)%string;
         (MAJOR_SEPARATOR ++ LF)%string;
         ("User details:" ++ LF)%string;
         (TAB ++ "Username: alice" ++ LF)%string;
         (TAB ++ "User ARN: arn:aws:iam::123456789012:user/alice" ++ LF)%string;
         (TAB ++ "User ID: AIDAEXAMPLE" ++ LF)%string;
         (TAB ++ "Created on: 1700000000" ++ LF)%string;
         (MAJOR_SEPARATOR ++ LF)%string ] ++ tail)%list.
Proof.
  exact (proj1
    (C6_fields_printed_verbatim sample.Time sample.TimeString sample.client
       ["n"] "alice" "arn:aws:iam::123456789012:user/alice" "AIDAEXAMPLE"
       1700000000%Z eq_refl)).
Defined.

Lemma C7_parts_in_order_witness :
  exists details,
    filter isHead
      (printed (events (main sample.TimeString (inr sample.client)
                          ["y"; "arn:aws:iam::aws:policy/ReadOnlyAccess"; "v1"]))) =
      ([headUser; headGroups; headAttached; headPrompt]
       ++ details ++ [headInline; closing])%list
    /\ (details = [] \/ details = [headVersion])
    /\ last (printed (events (main sample.TimeString (inr sample.client)
                                ["y"; "arn:aws:iam::aws:policy/ReadOnlyAccess"; "v1"])))
            "" = closing.
Proof.
  apply (C7_parts_in_order sample.Time sample.TimeString sample.client
           ["y"; "arn:aws:iam::aws:policy/ReadOnlyAccess"; "v1"]
           "alice" "arn:aws:iam::123456789012:user/alice" "AIDAEXAMPLE"
           1700000000%Z
           [("devs", "arn:aws:iam::123456789012:group/devs", "AGPAEXAMPLE",
             1600000000%Z)]
           [("ReadOnlyAccess", "arn:aws:iam::aws:policy/ReadOnlyAccess")]
           ["inline-1"]
           (events (PromptUserForPolicyVersionDetails sample.TimeString
                      sample.client
                      ["y"; "arn:aws:iam::aws:policy/ReadOnlyAccess"; "v1"]))
           []);
    reflexivity.
Defined.

Lemma C8_no_nil_dereference_witness :
  allFieldsPresent sample.client /\
  value (main sample.TimeString (inr sample.client) ["y"; "arn"; "v1"]) = Some tt.
Proof.
  assert (H : allFieldsPresent sample.client).
  { repeat split.
    - intros out E. injection E as <-. eexists. split; reflexivity.
    - intros n out E. injection E as <-. reflexivity.
    - intros n out E. injection E as <-. reflexivity.
    - intros arn out E. injection E as <-. reflexivity.
    - intros arn id out E. injection E as <-. eexists. split; reflexivity. }
  split; [exact H|].
  exact (proj1 (C8_no_nil_dereference sample.Time sample.TimeString)
           sample.client ["y"; "arn"; "v1"] H).
Defined.

Lemma C9_list_queries_use_returned_name_witness :
  exists c out u,
    (inr sample.client : error + iam.Client sample.Time) = inr c
    /\ iam.GetUser c = inr out
    /\ iam.User out = Some u
    /\ types.User.UserName u = Some "alice"
    /\ hd_error (requests (events (main sample.TimeString (inr sample.client) ["n"])))
       = Some iam.GetUserInput.
Proof.
  apply (C9_list_queries_use_returned_name sample.Time sample.TimeString
           (inr sample.client) ["n"]
           (EvCall (iam.ListUserPoliciesInput "alice") true) "alice").
  - vm_compute. auto 40.
  - reflexivity.
Defined.

(** ** Instances of the further properties *)

Lemma X2_groups_failure_is_fatal_witness :
  requests (events (main sample.TimeString (inr sample2.noGroups) ["n"])) =
    [iam.GetUserInput; iam.ListGroupsForUserInput "alice"].
Proof.
  apply (X2_groups_failure_is_fatal sample.Time sample.TimeString
           sample2.noGroups ["n"] "alice"
           "arn:aws:iam::123456789012:user/alice" "AIDAEXAMPLE" 1700000000%Z
           "AccessDenied" eq_refl eq_refl).
Defined.

Lemma X3_attached_failure_is_fatal_witness :
  scanned (events (main sample.TimeString (inr sample2.noAttached) ["y"])) = [].
Proof.
  apply (X3_attached_failure_is_fatal sample.Time sample.TimeString
           sample2.noAttached ["y"] "alice"
           "arn:aws:iam::123456789012:user/alice" "AIDAEXAMPLE" 1700000000%Z
           [("devs", "arn:aws:iam::123456789012:group/devs", "AGPAEXAMPLE",
             1600000000%Z)]
           "AccessDenied" eq_refl eq_refl eq_refl).
Defined.

Lemma X4_inline_failure_is_fatal_witness :
  printsClosing (events (main sample.TimeString (inr sample.flaky) ["n"]))
    = false.
Proof.
  apply (X4_inline_failure_is_fatal sample.Time sample.TimeString
           sample.flaky ["n"] "alice"
           "arn:aws:iam::123456789012:user/alice" "AIDAEXAMPLE" 1700000000%Z
           [("devs", "arn:aws:iam::123456789012:group/devs", "AGPAEXAMPLE",
             1600000000%Z)]
           [("ReadOnlyAccess", "arn:aws:iam::aws:policy/ReadOnlyAccess")]
           [EvPrint headPrompt; EvScan "n"] [] "Throttling"
           eq_refl eq_refl eq_refl eq_refl eq_refl).
Defined.

Lemma X5_versions_list_refused_witness :
  rest (PromptUserForPolicyVersionDetails sample.TimeString sample.throttled
          ["y"; "arn:aws:iam::aws:policy/ReadOnlyAccess"; "v1"]) = ["v1"].
Proof.
  rewrite (X5_versions_list_refused sample.Time sample.TimeString
             sample.throttled
             ["y"; "arn:aws:iam::aws:policy/ReadOnlyAccess"; "v1"]
             "Throttling" eq_refl eq_refl).
  reflexivity.
Defined.

Lemma X6_version_refused_witness :
  rest (PromptUserForPolicyVersionDetails sample.TimeString sample2.noVersion
          ["y"; "arn:aws:iam::aws:policy/ReadOnlyAccess"; "v1"; "more"])
    = ["more"].
Proof.
  rewrite (X6_version_refused sample.Time sample.TimeString sample2.noVersion
             ["y"; "arn:aws:iam::aws:policy/ReadOnlyAccess"; "v1"; "more"]
             [("v1", 1500000000%Z,
               Some "%7B%22Version%22%3A%222012-10-17%22%7D")]
             "NoSuchEntity" eq_refl eq_refl eq_refl).
  reflexivity.
Defined.

Lemma X7_version_details_witness :
  In (EvPrint (TAB ++ "Document: " ++ LF ++ sample2.versionJson ++ LF))
     (events (PromptUserForPolicyVersionDetails sample.TimeString sample.client
                ["y"; "arn:aws:iam::aws:policy/ReadOnlyAccess"; "v1"])).
Proof.
  rewrite (X7_version_details sample.Time sample.TimeString sample.client
             ["y"; "arn:aws:iam::aws:policy/ReadOnlyAccess"; "v1"]
             [("v1", 1500000000%Z,
               Some "%7B%22Version%22%3A%222012-10-17%22%7D")]
             "v1" 1500000000%Z "%7B%22Version%22%3A%222012-10-17%22%7D"
             eq_refl eq_refl eq_refl).
  vm_compute. auto 20.
Defined.

Lemma X8_encoded_document_printed_decoded_witness :
  failureMessages
    (events (PromptUserForPolicyVersionDetails sample.TimeString sample2.encoded
               ["y"; "arn:aws:iam::aws:policy/ReadOnlyAccess"; "v2"])) = [].
Proof.
  apply (X8_encoded_document_printed_decoded sample.Time sample.TimeString
           sample2.encoded
           ["y"; "arn:aws:iam::aws:policy/ReadOnlyAccess"; "v2"]
           [("v1", 1500000000%Z,
             Some "%7B%22Version%22%3A%222012-10-17%22%7D")]
           "v2" 1650000000%Z sample2.json eq_refl eq_refl eq_refl).
Defined.

Lemma X9_branch_panic_stops_main_witness :
  value (PromptUserForPolicyVersionDetails sample.TimeString
           sample2.nilVersionId ["y"; "arn"]) = None /\
  querySucceeded isListInline
    (events (main sample.TimeString (inr sample2.nilVersionId) ["y"; "arn"]))
    = false.
Proof.
  split; [reflexivity|].
  apply (X9_branch_panic_stops_main sample.Time sample.TimeString
           sample2.nilVersionId ["y"; "arn"] "alice"
           "arn:aws:iam::123456789012:user/alice" "AIDAEXAMPLE" 1700000000%Z
           [("devs", "arn:aws:iam::123456789012:group/devs", "AGPAEXAMPLE",
             1600000000%Z)]
           [("ReadOnlyAccess", "arn:aws:iam::aws:policy/ReadOnlyAccess")]
           eq_refl eq_refl eq_refl eq_refl).
Defined.

Lemma X12_last_line_on_return_witness :
  value (main sample.TimeString (inr sample2.noGroups) ["n"]) = Some tt /\
  In (last (printed (events (main sample.TimeString (inr sample2.noGroups)
                               ["n"]))) "")
     endings.
Proof.
  assert (H : value (main sample.TimeString (inr sample2.noGroups) ["n"])
              = Some tt) by (vm_compute; reflexivity).
  split; [exact H|].
  exact (X12_last_line_on_return sample.Time sample.TimeString
           sample2.noGroups ["n"] H).
Defined.

Lemma X13_one_block_per_item_witness :
  countMinor (events (main sample.TimeString (inr sample.client) ["n"])) = 3%nat.
Proof.
  apply (X13_one_block_per_item sample.Time sample.TimeString sample.client
           ["n"] "alice" "arn:aws:iam::123456789012:user/alice" "AIDAEXAMPLE"
           1700000000%Z
           [("devs", "arn:aws:iam::123456789012:group/devs", "AGPAEXAMPLE",
             1600000000%Z)]
           [("ReadOnlyAccess", "arn:aws:iam::aws:policy/ReadOnlyAccess")]
           ["inline-1"]
           [EvPrint headPrompt; EvScan "n"] []
           eq_refl eq_refl eq_refl eq_refl eq_refl).
Defined.
